(** * Voting / delegation status reconciliation: a shallow embedding

    The development follows the TypeScript sources of the front end:

    - [ProposalDetailPage.tsx]: the deadline utilities [getProposalStatus],
      [getTimeRemaining], [canCreateSuggestions] and the page-level
      [loadVotingStatus];
    - [SuggestionDisplay.tsx]: [isSuggestionApplied];
    - [VotingStatus.tsx]: the status display;
    - [VotingPanel.tsx]: the panel state, [loadVotingStatus], the deadline
      effect and [isButtonDisabled];
    - [VoteModal.tsx], [DelegateModal.tsx]: [validation] and [handleSubmit].

    Conventions.  A [Date] is represented by its time value in milliseconds
    (what [getTime()] returns), an integer of [Z]; the wall clock read by
    [new Date()] is passed explicitly as [now].  Option numbers are
    integers.  [Math.floor (a / b)] on such integers is [Z.div] (both round
    towards minus infinity for a positive divisor; the operands are exact
    in double precision for every time value a [Date] can hold next to a
    realistic clock).  A deadline string that does not parse makes
    [getTime()] return NaN; such deadlines are outside this model, which is
    about timestamps.  React state is threaded
    explicitly: a handler is a function from the state it closes over to the
    next state and the network requests it issues. *)

From Stdlib Require Import ZArith String Ascii List Bool Lia DecimalString.
From Stdlib Require Import Sorted Permutation QArith.
Import ListNotations.

Local Open Scope string_scope.
Local Open Scope Z_scope.

(** ** JavaScript primitives used by the sources *)

Module Js.

(** [String(n)] / template-literal interpolation of an integer. *)
Definition number_to_string (n : Z) : string :=
  NilZero.string_of_int (Z.to_int n).

(** ECMAScript white space and line terminators among the ASCII code
    units: TAB, LF, VT, FF, CR and SPACE.  Strings are taken over ASCII. *)
Definition isWhiteSpace (c : ascii) : bool :=
  let n := nat_of_ascii c in
  (Nat.eqb n 9 || Nat.eqb n 10 || Nat.eqb n 11 || Nat.eqb n 12
   || Nat.eqb n 13 || Nat.eqb n 32)%bool.

Fixpoint trimStart (s : string) : string :=
  match s with
  | EmptyString => EmptyString
  | String c s' => if isWhiteSpace c then trimStart s' else s
  end.

Definition reverse (s : string) : string :=
  string_of_list_ascii (rev (list_ascii_of_string s)).

Definition trimEnd (s : string) : string :=
  reverse (trimStart (reverse s)).

(** [String.prototype.trim]. *)
Definition trim (s : string) : string := trimEnd (trimStart s).

Definition lowerChar (c : ascii) : ascii :=
  let n := nat_of_ascii c in
  if (Nat.leb 65 n && Nat.leb n 90)%bool then ascii_of_nat (n + 32) else c.

(** [String.prototype.toLowerCase]. *)
Fixpoint toLowerCase (s : string) : string :=
  match s with
  | EmptyString => EmptyString
  | String c s' => String (lowerChar c) (toLowerCase s')
  end.

(** Truthiness of a string: every string but the empty one. *)
Definition truthy_string (s : string) : bool :=
  match s with EmptyString => false | _ => true end.

(** Truthiness of an integer number: every number but zero. *)
Definition truthy_number (n : Z) : bool := negb (n =? 0).

(** [String.prototype.includes]: [sub] occurs somewhere in [s]. *)
Fixpoint includes (s sub : string) : bool :=
  (String.prefix sub s
   || match s with
      | EmptyString => false
      | String _ s' => includes s' sub
      end)%bool.

(** [Array.prototype.sort(cmp)].  The language requires the sort to be
    stable, and for a consistent comparator the stable sorted arrangement
    of an array is unique; it is computed here by insertion from the
    right, an element staying in front of the later elements it compares
    equal to. *)
Fixpoint insert {A : Type} (cmp : A -> A -> Z) (x : A) (l : list A) : list A :=
  match l with
  | [] => [x]
  | y :: l' => if cmp x y <=? 0 then x :: l else y :: insert cmp x l'
  end.

Definition sort {A : Type} (cmp : A -> A -> Z) (l : list A) : list A :=
  fold_right (insert cmp) [] l.

End Js.

(** ** Data model *)

Record ProposalOption := {
  option_number : Z;
  option_text : string }.

Record DelegateInfo := {
  unique_id : string;
  name : string }.

(** [interface VotingStatus] of [SuggestionDisplay.tsx]: the [user_status]
    object of the voting-status response.  An optional field is an
    [option]; [None] is JavaScript's [undefined]. *)
Record VotingStatus := {
  has_voted : bool;
  has_delegated : bool;
  voted_option : option Z;
  delegate_info : option DelegateInfo;
  selected_option : option ProposalOption;
  can_act : bool;
  cooldown_active : bool }.

(** [interface VotingStatusData] of [VotingPanel.tsx]: the full response of
    [GET /api/proposals/:id/voting-status]. *)
Record VotingStatusData := {
  proposal_title : string;
  time_remaining_seconds : Z;
  is_active : bool;
  user_status : VotingStatus;
  options : list ProposalOption }.

Module Proposal.

(** Modelled from the spec: the [Proposal] type of [utils/proposalUtils]
    is not among the sources.  The data model gives a proposal an
    identifier, a title, a creator, an ordered list of options and an
    absolute voting deadline; these are also the fields the sources read
    ([options] is optional there: [proposal.options?.find]). *)
Record t := {
  proposal_id : string;
  title : string;
  created_by : string;
  voting_deadline : Z;
  options : option (list ProposalOption) }.

End Proposal.

Inductive SuggestionType := delegate | vote_option.

(** [interface Suggestion] of [SuggestionDisplay.tsx]. *)
Record Suggestion := {
  suggestion_id : string;
  suggestion_type : SuggestionType;
  target_option_number : option Z;
  target_user : option string;
  created_at : Z;
  users : option (string * string * string);
  proposal_option : option ProposalOption }.

(** What an [await apiFetch(...)] followed by [await response.json()] can
    evaluate to inside a [try]: a body with [response.ok], a response that
    is not ok (with its status code), or an exception. *)
Inductive FetchResult (A : Type) : Type :=
| Ok (data : A)
| NotOk (status : Z)
| Thrown.

Arguments Ok {A} data.
Arguments NotOk {A} status.
Arguments Thrown {A}.

(** The value a status refresh stores: [setVotingStatus(data)] on success,
    [setVotingStatus(null)] in the two failure branches. *)
Definition stored (r : FetchResult VotingStatusData) : option VotingStatusData :=
  match r with
  | Ok data => Some data
  | NotOk _ => None
  | Thrown => None
  end.

(** A refresh has failed: the response is not ok, or [apiFetch] or
    [response.json()] threw. *)
Definition failed {A : Type} (r : FetchResult A) : Prop :=
  match r with
  | Ok _ => False
  | NotOk _ => True
  | Thrown => True
  end.

(** ** Deadline utilities ([ProposalDetailPage.tsx]) *)

Module ProposalDetailPage.

Definition getProposalStatus (now voting_deadline : Z) : string :=
  let diffMs := voting_deadline - now in
  let diffHours := diffMs / (1000 * 60 * 60) in
  if diffMs <=? 0 then "EXPIRED"
  else if diffHours <=? 24 then "ENDING SOON"
  else "ACTIVE".

Definition getTimeRemaining (now voting_deadline : Z) : string :=
  let diffMs := voting_deadline - now in
  if diffMs <=? 0 then "Voting has ended"
  else
    let diffDays := diffMs / (1000 * 60 * 60 * 24) in
    let diffHours := diffMs / (1000 * 60 * 60) in
    if diffDays >? 0 then
      Js.number_to_string diffDays ++ " day"
        ++ (if diffDays =? 1 then "" else "s") ++ " left"
    else if diffHours >? 0 then
      Js.number_to_string diffHours ++ " hour"
        ++ (if diffHours =? 1 then "" else "s") ++ " left"
    else
      let diffMinutes := diffMs / (1000 * 60) in
      Js.number_to_string (Z.max 1 diffMinutes) ++ " minute"
        ++ (if diffMinutes =? 1 then "" else "s") ++ " left".

(** Suggestions can be created until one hour before the deadline. *)
Definition canCreateSuggestions (now voting_deadline : Z) : bool :=
  let oneHourFromNow := now + 60 * 60 * 1000 in
  voting_deadline >? oneHourFromNow.


(** The page keeps its own copy of the voting status (for the suggestion
    list).  [loadVotingStatus] awaits the response and then stores it;
    the function below is its continuation after the [await]. *)
Definition loadVotingStatus_settle
    (r : FetchResult VotingStatusData)
    (votingStatus : option VotingStatusData) : option VotingStatusData :=
  stored r.

(** [userVotingStatus={votingStatus?.user_status}] *)
Definition userVotingStatus (votingStatus : option VotingStatusData)
  : option VotingStatus :=
  option_map user_status votingStatus.

(** [const isExpired = status === "EXPIRED"], the prop handed to the
    voting panel; the suggestion list is rendered when it is false. *)
Definition isExpired (now voting_deadline : Z) : bool :=
  String.eqb (getProposalStatus now voting_deadline) "EXPIRED".

Definition getStatusBadgeClass (status : string) : string :=
  if String.eqb status "ACTIVE" then
    "bg-green-500/20 text-green-700 backdrop-blur-sm"
  else if String.eqb status "ENDING SOON" then
    "bg-orange-500/20 text-orange-700 backdrop-blur-sm"
  else if String.eqb status "EXPIRED" then
    "bg-red-500/20 text-red-700 backdrop-blur-sm"
  else "bg-gray-500/20 text-gray-700 backdrop-blur-sm".

End ProposalDetailPage.

Module Category.

(** [interface Category] of [SuggestionDisplay.tsx] and
    [SuggestionForm.tsx]. *)
Record t := {
  category_id : string;
  title : string;
  created_by : string }.

End Category.

(** ** Applied detection ([SuggestionDisplay.tsx]) *)

Module SuggestionDisplay.

(** Strict equality [===] of two optional numbers. *)
Definition strict_eq_number (a b : option Z) : bool :=
  match a, b with
  | Some x, Some y => x =? y
  | None, None => true
  | _, _ => false
  end.

(** Strict equality [===] of two optional strings. *)
Definition strict_eq_string (a b : option string) : bool :=
  match a, b with
  | Some x, Some y => String.eqb x y
  | None, None => true
  | _, _ => false
  end.

Definition isSuggestionApplied
    (userVotingStatus : option VotingStatus) (suggestion : Suggestion) : bool :=
  match userVotingStatus with
  | None => false
  | Some st =>
      match suggestion_type suggestion with
      | vote_option =>
          has_voted st
          && strict_eq_number (voted_option st) (target_option_number suggestion)
      | delegate =>
          has_delegated st
          && strict_eq_string (option_map unique_id (delegate_info st))
                              (target_user suggestion)
      end
  end.

(** [const cooldownActive = userVotingStatus?.cooldown_active || false] *)
Definition cooldownActive (userVotingStatus : option VotingStatus) : bool :=
  match userVotingStatus with
  | None => false
  | Some st => cooldown_active st
  end.

(** [const isVotingActive = () => now < deadline] *)
Definition isVotingActive (now : Z) (proposal : Proposal.t) : bool :=
  now <? Proposal.voting_deadline proposal.

(** The [disabled] attribute of the Apply button. *)
Definition applyDisabled (now : Z) (proposal : Proposal.t)
    (userVotingStatus : option VotingStatus) (isApplying : bool)
    (suggestion : Suggestion) : bool :=
  let isApplied := isSuggestionApplied userVotingStatus suggestion in
  let votingActive := isVotingActive now proposal in
  isApplying || isApplied || negb votingActive
  || (cooldownActive userVotingStatus && negb isApplied).

(** The comparator of [sortedSuggestions]: vote suggestions first, then
    delegate suggestions; inside a type the newer one first. *)
Definition compareSuggestions (a b : Suggestion) : Z :=
  match suggestion_type a, suggestion_type b with
  | vote_option, delegate => -1
  | delegate, vote_option => 1
  | _, _ => created_at b - created_at a
  end.

(** [const sortedSuggestions = [...suggestions].sort(...)] *)
Definition sortedSuggestions (suggestions : list Suggestion) : list Suggestion :=
  Js.sort compareSuggestions suggestions.

Definition formatSuggestionTime (now createdAt : Z) : string :=
  let diffHours := (now - createdAt) / (1000 * 60 * 60) in
  if diffHours <? 1 then "Just now"
  else if diffHours =? 1 then "1 hour ago"
  else if diffHours <? 24 then Js.number_to_string diffHours ++ " hours ago"
  else
    let diffDays := diffHours / 24 in
    if diffDays =? 1 then "1 day ago"
    else Js.number_to_string diffDays ++ " days ago".

(** The [canUserCreateSuggestions] memo. *)
Definition canUserCreateSuggestions (loadingCategories : bool)
    (userCategories : list Category.t) (proposal : Proposal.t) : bool :=
  if loadingCategories then false
  else existsb (fun cat => String.eqb (Category.created_by cat)
                                      (Proposal.created_by proposal))
               userCategories.

(** [canCreateSuggestions && canUserCreateSuggestions], the condition
    under which the "Create Suggestion" button is rendered;
    [canCreateSuggestions] is the prop the page computes. *)
Definition createButtonShown (canCreateSuggestions loadingCategories : bool)
    (userCategories : list Category.t) (proposal : Proposal.t) : bool :=
  canCreateSuggestions
  && canUserCreateSuggestions loadingCategories userCategories proposal.

End SuggestionDisplay.

(** ** The status display ([VotingStatus.tsx]) *)

Module VotingStatusComponent.

(** The alternatives the component renders. *)
Inductive View :=
| Skeleton
| UnableToLoad
| Voted (selected : ProposalOption)
| Delegated (to : DelegateInfo)
| NotParticipated.

Definition VotingStatus (status : option VotingStatus) (loading : bool) : View :=
  if loading then Skeleton
  else
    match status with
    | None => UnableToLoad
    | Some st =>
        match has_voted st, selected_option st with
        | true, Some sel => Voted sel
        | _, _ =>
            match has_delegated st, delegate_info st with
            | true, Some d => Delegated d
            | _, _ => NotParticipated
            end
        end
    end.

(** The text each alternative shows. *)
Definition caption (v : View) : string :=
  match v with
  | Skeleton => ""
  | UnableToLoad => "Unable to load voting status"
  | Voted sel =>
      "You voted for Option " ++ Js.number_to_string (option_number sel)
  | Delegated d => "You delegated to @" ++ unique_id d
  | NotParticipated => "You haven't participated yet"
  end.

End VotingStatusComponent.

(** ** Network requests issued by the voting components *)

Inductive Request :=
| GET_voting_status (proposal_id : string)
| POST_vote (proposal_id : string) (option_number : Z)
| POST_delegate (proposal_id : string) (target_user : string).

(** ** The vote modal ([VoteModal.tsx]) *)

Module VoteModal.

Record Props := {
  proposal : Proposal.t;
  currentVote : option ProposalOption }.

Record State := {
  isVisible : bool;
  selectedOption : Z;
  submitting : bool }.

(** [useState(currentVote?.option_number || 1)]; the mount effect has
    already set [isVisible]. *)
Definition initial (p : Props) : State :=
  {| isVisible := true;
     selectedOption :=
       match currentVote p with
       | Some v =>
           if Js.truthy_number (option_number v) then option_number v else 1
       | None => 1
       end;
     submitting := false |}.

(** [onChange] of a radio input: [setSelectedOption(parseInt(value))]. *)
Definition setSelectedOption (n : Z) (st : State) : State :=
  {| isVisible := isVisible st; selectedOption := n;
     submitting := submitting st |}.

Definition setSubmitting (b : bool) (st : State) : State :=
  {| isVisible := isVisible st; selectedOption := selectedOption st;
     submitting := b |}.

Definition setIsVisible (b : bool) (st : State) : State :=
  {| isVisible := b; selectedOption := selectedOption st;
     submitting := submitting st |}.

(** [handleSubmit] up to its [await]: the guard, [setSubmitting(true)] and
    the request it sends (if any). *)
Definition handleSubmit (p : Props) (st : State) : State * option Request :=
  if negb (Js.truthy_number (selectedOption st)) || submitting st
  then (st, None)
  else (setSubmitting true st,
        Some (POST_vote (Proposal.proposal_id (proposal p)) (selectedOption st))).

(** [handleClose]: hides the modal; the caller arms [setTimeout(onClose, 300)]. *)
Definition handleClose (st : State) : State := setIsVisible false st.

(** The continuation of [handleSubmit] after the [await]: on [response.ok]
    [onSuccess(); handleClose()], and [setSubmitting(false)] in [finally].
    The boolean tells whether [onSuccess] and [handleClose] were called. *)
Definition handleSubmit_settle (r : FetchResult unit) (st : State)
  : State * bool :=
  match r with
  | Ok _ => (setSubmitting false (handleClose st), true)
  | NotOk _ => (setSubmitting false st, false)
  | Thrown => (setSubmitting false st, false)
  end.

(** The X and Cancel buttons carry [disabled={submitting}]. *)
Definition closeButtonDisabled (st : State) : bool := submitting st.

End VoteModal.

(** ** The delegate modal ([DelegateModal.tsx]) *)

Module OrganizationUser.

(** [interface OrganizationUser] *)
Record t := {
  unique_id : string;
  first_name : string;
  last_name : string }.

End OrganizationUser.

Module DelegateModal.

Record Props := {
  proposal : Proposal.t;
  currentDelegate : option DelegateInfo }.

Record State := {
  isVisible : bool;
  targetUser : string;
  submitting : bool;
  organizationUsers : list OrganizationUser.t;
  loadingUsers : bool;
  showDropdown : bool }.

Record Validation := {
  valid : bool;
  message : string }.

(** [useState(currentDelegate?.unique_id || "")] *)
Definition initial (p : Props) : State :=
  {| isVisible := true;
     targetUser :=
       match currentDelegate p with
       | Some d => unique_id d
       | None => ""
       end;
     submitting := false;
     organizationUsers := [];
     loadingUsers := true;
     showDropdown := false |}.

Definition setSubmitting (b : bool) (st : State) : State :=
  {| isVisible := isVisible st; targetUser := targetUser st;
     submitting := b; organizationUsers := organizationUsers st;
     loadingUsers := loadingUsers st; showDropdown := showDropdown st |}.

(** The [validation] memo. *)
Definition validation (st : State) : Validation :=
  if negb (Js.truthy_string (Js.trim (targetUser st))) then
    {| valid := false; message := "Please enter a username" |}
  else
    let trimmed := Js.trim (targetUser st) in
    let userExists :=
      existsb (fun user =>
                 String.eqb (Js.toLowerCase (OrganizationUser.unique_id user))
                            (Js.toLowerCase trimmed))
              (organizationUsers st) in
    if negb userExists then
      {| valid := false; message := "User not found in your organization" |}
    else {| valid := true; message := "Valid user" |}.

(** [handleSubmit] up to its [await]. *)
Definition handleSubmit (p : Props) (st : State) : State * option Request :=
  if negb (valid (validation st)) || submitting st
  then (st, None)
  else (setSubmitting true st,
        Some (POST_delegate (Proposal.proposal_id (proposal p))
                            (Js.trim (targetUser st)))).

Definition setTargetUser (v : string) (st : State) : State :=
  {| isVisible := isVisible st; targetUser := v;
     submitting := submitting st; organizationUsers := organizationUsers st;
     loadingUsers := loadingUsers st; showDropdown := showDropdown st |}.

Definition setShowDropdown (b : bool) (st : State) : State :=
  {| isVisible := isVisible st; targetUser := targetUser st;
     submitting := submitting st; organizationUsers := organizationUsers st;
     loadingUsers := loadingUsers st; showDropdown := b |}.

Definition setIsVisible (b : bool) (st : State) : State :=
  {| isVisible := b; targetUser := targetUser st;
     submitting := submitting st; organizationUsers := organizationUsers st;
     loadingUsers := loadingUsers st; showDropdown := showDropdown st |}.

(** The filter of the [filteredUsers] memo: the lower-cased (not trimmed)
    input occurs in the user's id or in the full name. *)
Definition matchesQuery (query : string) (user : OrganizationUser.t) : bool :=
  let uniqueId := Js.toLowerCase (OrganizationUser.unique_id user) in
  let fullName :=
    Js.toLowerCase (OrganizationUser.first_name user ++ " "
                    ++ OrganizationUser.last_name user) in
  Js.includes uniqueId query || Js.includes fullName query.

(** The [filteredUsers] memo: the autocomplete suggestions. *)
Definition filteredUsers (st : State) : list OrganizationUser.t :=
  if negb (Js.truthy_string (Js.trim (targetUser st))) then []
  else
    let query := Js.toLowerCase (targetUser st) in
    firstn 5 (filter (matchesQuery query) (organizationUsers st)).

Definition handleInputChange (value : string) (st : State) : State :=
  setShowDropdown (Js.truthy_string (Js.trim value)) (setTargetUser value st).

Definition handleUserSelect (user : OrganizationUser.t) (st : State) : State :=
  setShowDropdown false (setTargetUser (OrganizationUser.unique_id user) st).

(** [showDropdown && filteredUsers.length > 0] *)
Definition dropdownShown (st : State) : bool :=
  showDropdown st
  && match filteredUsers st with [] => false | _ => true end.

(** The continuation of [handleSubmit] after the [await]; the boolean
    tells whether [onSuccess] and [handleClose] were called. *)
Definition handleSubmit_settle (r : FetchResult unit) (st : State)
  : State * bool :=
  match r with
  | Ok _ => (setSubmitting false (setIsVisible false st), true)
  | NotOk _ => (setSubmitting false st, false)
  | Thrown => (setSubmitting false st, false)
  end.

End DelegateModal.

(** ** Applying a suggestion ([SuggestionDisplay.tsx]) *)

Module ApplySuggestion.

(** [handleApplySuggestion] up to its [await]: the request it sends, or
    the message of the error it throws before sending one (caught by its
    own [catch] and shown in an alert). *)
Definition handleApplySuggestion (proposal : Proposal.t)
    (suggestion : Suggestion) : Request + string :=
  match suggestion_type suggestion with
  | delegate =>
      match target_user suggestion with
      | Some u =>
          if Js.truthy_string u
          then inl (POST_delegate (Proposal.proposal_id proposal) u)
          else inr "No target user specified for delegation"
      | None => inr "No target user specified for delegation"
      end
  | vote_option =>
      match target_option_number suggestion with
      | Some n =>
          if Js.truthy_number n
          then inl (POST_vote (Proposal.proposal_id proposal) n)
          else inr "No target option specified for voting"
      | None => inr "No target option specified for voting"
      end
  end.

End ApplySuggestion.

(** ** The suggestion form ([SuggestionForm.tsx]) *)

Module SuggestionForm.

Record FormData := {
  category_id : string;
  suggestion_type : SuggestionType;
  target_option_number : Z;
  target_user : string }.

(** The initial value of [formData]. *)
Definition initial : FormData :=
  {| category_id := ""; suggestion_type := vote_option;
     target_option_number := 1; target_user := "" |}.

Record Validation := {
  isValid : bool;
  errors : list string }.

(** The [validation] memo: the messages are pushed in this order. *)
Definition validation (formData : FormData) : Validation :=
  let errors :=
    ((if negb (Js.truthy_string (category_id formData))
      then ["Please select a category"] else [])
     ++ (match suggestion_type formData with
         | vote_option =>
             if negb (Js.truthy_number (target_option_number formData))
                || (target_option_number formData <? 1)
             then ["Please select a valid voting option"] else []
         | delegate => []
         end)
     ++ (match suggestion_type formData with
         | delegate =>
             if negb (Js.truthy_string (Js.trim (target_user formData)))
             then ["Please select or enter a user to delegate to"] else []
         | vote_option => []
         end))%list in
  {| isValid := Nat.eqb (List.length errors) 0; errors := errors |}.

(** The body of the request: [suggestionPayload]. *)
Record Payload := {
  payload_proposal_id : string;
  payload_suggestion_type : SuggestionType;
  payload_target_user : option string;
  payload_target_option_number : option Z }.

(** [handleSubmit] up to its [await]: the category the request is posted
    to ([/api/categories/:category_id/suggest]) and its body. *)
Definition handleSubmit (proposal : Proposal.t) (formData : FormData)
  : option (string * Payload) :=
  if negb (isValid (validation formData)) then None
  else
    Some (category_id formData,
          {| payload_proposal_id := Proposal.proposal_id proposal;
             payload_suggestion_type := suggestion_type formData;
             payload_target_user :=
               match suggestion_type formData with
               | delegate => Some (target_user formData)
               | vote_option => None
               end;
             payload_target_option_number :=
               match suggestion_type formData with
               | vote_option => Some (target_option_number formData)
               | delegate => None
               end |}).

End SuggestionForm.

(** ** The results view ([ResultsVisualization.tsx])

    Vote counts are voting power and need not be whole numbers; a number
    that arrives in a JSON body is finite, hence a rational, and the
    comparisons the component makes are exact on it.  The percentages and
    bar widths, which round, are left out. *)

Module ResultsVisualization.

Record Metadata := {
  totalVotingPower : Q;
  totalVotesCast : Q;
  winningOption : option Z }.

Record VoteResults := {
  optionResults : list (string * Q);
  metadata : Metadata }.

(** [optionResults[key]] *)
Fixpoint lookup (key : string) (m : list (string * Q)) : option Q :=
  match m with
  | [] => None
  | (k, v) :: m' => if String.eqb k key then Some v else lookup key m'
  end.

(** [optionResults[option.option_number.toString()] || 0] *)
Definition votesOf (results : VoteResults) (option : ProposalOption) : Q :=
  match lookup (Js.number_to_string (option_number option))
               (optionResults results) with
  | Some v => if Qeq_bool v 0 then 0%Q else v
  | None => 0%Q
  end.

(** The sign of [b.votes - a.votes]; [sort] looks at nothing else. *)
Definition compareVotes (a b : ProposalOption * Q) : Z :=
  match Qcompare (snd b) (snd a) with
  | Lt => -1
  | Eq => 0
  | Gt => 1
  end.

(** [options.map(...).sort((a, b) => b.votes - a.votes)] *)
Definition sortedOptions (results : VoteResults) (options : list ProposalOption)
  : list (ProposalOption * Q) :=
  Js.sort compareVotes (map (fun o => (o, votesOf results o)) options).

(** [const hasVotes = totalVotes > 0] *)
Definition hasVotes (results : VoteResults) : bool :=
  negb (Qle_bool (totalVotingPower (metadata results)) 0).

(** Truthiness of [winningOption]: neither [null] nor 0. *)
Definition truthy_winner (w : option Z) : bool :=
  match w with
  | Some n => Js.truthy_number n
  | None => false
  end.

Inductive Header :=
| NoVotesCast
| Winner (n : Z)
| Tie.

(** The line under "Final Results". *)
Definition header (results : VoteResults) : Header :=
  if negb (hasVotes results) then NoVotesCast
  else
    match winningOption (metadata results) with
    | Some n => if Js.truthy_number n then Winner n else Tie
    | None => Tie
    end.

(** [option.option_number === winningOption && hasVotes] *)
Definition isWinner (results : VoteResults) (o : ProposalOption * Q) : bool :=
  match winningOption (metadata results) with
  | Some w => option_number (fst o) =? w
  | None => false
  end
  && hasVotes results.

(** [!winningOption && option.votes > 0 && hasVotes] *)
Definition isTie (results : VoteResults) (o : ProposalOption * Q) : bool :=
  negb (truthy_winner (winningOption (metadata results)))
  && negb (Qle_bool (snd o) 0)
  && hasVotes results.

End ResultsVisualization.

(** ** Loading the proposal ([ProposalDetailPage.tsx]) *)

Module ProposalPage.


Record State := {
  proposal : option (Proposal.t * option ResultsVisualization.VoteResults);
  loading : bool;
  error : string;
  notFound : bool }.

(** The [useState] initial values. *)
Definition initial : State :=
  {| proposal := None; loading := true; error := ""; notFound := false |}.




(** What the page renders, in the order of its early returns. *)
Inductive View :=
| SkeletonView
| ErrorView (message : string)
| NotFoundView
| Blank
| DetailView (p : Proposal.t * option ResultsVisualization.VoteResults).


End ProposalPage.

(** ** The voting panel ([VotingPanel.tsx]) *)

Module VotingPanel.

Record Props := {
  proposal : Proposal.t;
  isExpired : bool }.

Record State := {
  votingStatus : option VotingStatusData;
  statusLoading : bool;
  deadlinePassed : bool;
  showVoteModal : bool;
  showDelegateModal : bool }.

(** The [useState] initial values. *)
Definition initial (p : Props) : State :=
  {| votingStatus := None;
     statusLoading := true;
     deadlinePassed := isExpired p;
     showVoteModal := false;
     showDelegateModal := false |}.

Definition setVotingStatus (v : option VotingStatusData) (st : State) : State :=
  {| votingStatus := v; statusLoading := statusLoading st;
     deadlinePassed := deadlinePassed st; showVoteModal := showVoteModal st;
     showDelegateModal := showDelegateModal st |}.

Definition setStatusLoading (b : bool) (st : State) : State :=
  {| votingStatus := votingStatus st; statusLoading := b;
     deadlinePassed := deadlinePassed st; showVoteModal := showVoteModal st;
     showDelegateModal := showDelegateModal st |}.

Definition setDeadlinePassed (b : bool) (st : State) : State :=
  {| votingStatus := votingStatus st; statusLoading := statusLoading st;
     deadlinePassed := b; showVoteModal := showVoteModal st;
     showDelegateModal := showDelegateModal st |}.

Definition setShowVoteModal (b : bool) (st : State) : State :=
  {| votingStatus := votingStatus st; statusLoading := statusLoading st;
     deadlinePassed := deadlinePassed st; showVoteModal := b;
     showDelegateModal := showDelegateModal st |}.

Definition setShowDelegateModal (b : bool) (st : State) : State :=
  {| votingStatus := votingStatus st; statusLoading := statusLoading st;
     deadlinePassed := deadlinePassed st; showVoteModal := showVoteModal st;
     showDelegateModal := b |}.

(** [loadVotingStatus] up to its [await]: [setStatusLoading(true)] and
    the request. *)
Definition loadVotingStatus (p : Props) (st : State) : State * Request :=
  (setStatusLoading true st,
   GET_voting_status (Proposal.proposal_id (proposal p))).

(** The continuation of [loadVotingStatus] after the [await]: the
    response is stored as it arrives, then [finally] clears the loading
    flag.  The continuation holds no token of the request it belongs to. *)
Definition loadVotingStatus_settle
    (r : FetchResult VotingStatusData) (st : State) : State :=
  setStatusLoading false (setVotingStatus (stored r) st).

(** The effect on [[votingStatus, isExpired]]. *)
Definition deadlineEffect (p : Props) (st : State) : State :=
  match votingStatus st with
  | Some vs => setDeadlinePassed (negb (is_active vs)) st
  | None => if isExpired p then setDeadlinePassed true st else st
  end.

(** [votingStatus?.user_status?.cooldown_active], as a truth value
    ([undefined] is falsy). *)
Definition cooldown (st : State) : bool :=
  match votingStatus st with
  | Some vs => cooldown_active (user_status vs)
  | None => false
  end.

(** The truth value of [isButtonDisabled], the [disabled] attribute of
    both the "Vote Directly" and the "Delegate Vote" button. *)
Definition isButtonDisabled (st : State) : bool :=
  deadlinePassed st || (cooldown st && negb (deadlinePassed st)).

Definition handleVoteClick (st : State) : State := setShowVoteModal true st.

Definition handleDelegateClick (st : State) : State :=
  setShowDelegateModal true st.

(** [<VotingStatus status={votingStatus?.user_status || null}
     loading={statusLoading} />] *)
Definition statusView (st : State) : VotingStatusComponent.View :=
  VotingStatusComponent.VotingStatus
    (option_map user_status (votingStatus st)) (statusLoading st).

(** [currentVote={votingStatus?.user_status?.selected_option || null}] *)
Definition currentVote (st : State) : option ProposalOption :=
  match votingStatus st with
  | Some vs => selected_option (user_status vs)
  | None => None
  end.


End VotingPanel.

(** ** The panel, its vote modal and the network, as an event system

    One [World] is what exists for one proposal on the page: the panel's
    props and state, the [VoteModal] instance React has mounted for it (if
    any), the timers armed by [handleClose], and the requests that are in
    flight.  The sequence and instance numbers are bookkeeping of the
    environment (which response answers which request); the components
    themselves store none of them. *)

Module Session.

Record World := {
  props : VotingPanel.Props;
  panel : VotingPanel.State;
  (* the mounted [VoteModal] instance and its number *)
  voteModal : option (nat * VoteModal.State);
  (* how many [VoteModal] instances have been mounted so far *)
  instances : nat;
  (* pending [setTimeout(onClose, 300)] callbacks *)
  closeTimers : nat;
  (* how many status requests have been initiated so far *)
  statusRequests : nat;
  (* sequence numbers of the status requests awaiting their response *)
  statusInFlight : list nat;
  (* the instances whose [POST vote] awaits its response *)
  votesInFlight : list nat;
  (* every request issued so far, oldest first *)
  sent : list Request }.

Inductive Event :=
| LoadVotingStatus
    (* [loadVotingStatus()] is called: cooldown timer or any other caller *)
| StatusResponse (seq : nat) (r : FetchResult VotingStatusData)
    (* the response to status request number [seq] arrives *)
| ParentRender (isExpired : bool)
    (* the page re-renders the panel with a new value of [isExpired] *)
| ClickVoteDirectly
    (* a click on "Vote Directly" *)
| SelectOption (n : Z)
    (* a click on the radio input of option [n] in the modal *)
| SubmitVote
    (* the modal's form is submitted *)
| BackdropClick
    (* a click on the modal's backdrop *)
| CloseButtonClick
    (* a click on the modal's X or Cancel button *)
| CloseTimeout
    (* a pending [setTimeout(onClose, 300)] fires *)
| VoteResponse (i : nat) (r : FetchResult unit)
    (* the response to the [POST vote] of modal instance [i] arrives *).

Definition mem_nat (n : nat) (l : list nat) : bool := existsb (Nat.eqb n) l.

Definition remove_nat (n : nat) (l : list nat) : list nat :=
  filter (fun m => negb (Nat.eqb n m)) l.

Definition with_panel (st : VotingPanel.State) (w : World) : World :=
  {| props := props w; panel := st; voteModal := voteModal w;
     instances := instances w; closeTimers := closeTimers w;
     statusRequests := statusRequests w; statusInFlight := statusInFlight w;
     votesInFlight := votesInFlight w; sent := sent w |}.

Definition with_props (p : VotingPanel.Props) (w : World) : World :=
  {| props := p; panel := panel w; voteModal := voteModal w;
     instances := instances w; closeTimers := closeTimers w;
     statusRequests := statusRequests w; statusInFlight := statusInFlight w;
     votesInFlight := votesInFlight w; sent := sent w |}.

Definition with_voteModal (m : option (nat * VoteModal.State)) (w : World)
  : World :=
  {| props := props w; panel := panel w; voteModal := m;
     instances := instances w; closeTimers := closeTimers w;
     statusRequests := statusRequests w; statusInFlight := statusInFlight w;
     votesInFlight := votesInFlight w; sent := sent w |}.

Definition with_closeTimers (n : nat) (w : World) : World :=
  {| props := props w; panel := panel w; voteModal := voteModal w;
     instances := instances w; closeTimers := n;
     statusRequests := statusRequests w; statusInFlight := statusInFlight w;
     votesInFlight := votesInFlight w; sent := sent w |}.

Definition with_statusInFlight (l : list nat) (w : World) : World :=
  {| props := props w; panel := panel w; voteModal := voteModal w;
     instances := instances w; closeTimers := closeTimers w;
     statusRequests := statusRequests w; statusInFlight := l;
     votesInFlight := votesInFlight w; sent := sent w |}.

Definition with_votesInFlight (l : list nat) (w : World) : World :=
  {| props := props w; panel := panel w; voteModal := voteModal w;
     instances := instances w; closeTimers := closeTimers w;
     statusRequests := statusRequests w; statusInFlight := statusInFlight w;
     votesInFlight := l; sent := sent w |}.

(** The props the panel passes to [<VoteModal>]. *)
Definition modalProps (w : World) : VoteModal.Props :=
  {| VoteModal.proposal := VotingPanel.proposal (props w);
     VoteModal.currentVote := VotingPanel.currentVote (panel w) |}.

(** A call of the panel's [loadVotingStatus]: the request leaves with the
    next sequence number. *)
Definition initiateStatus (w : World) : World :=
  let '(st, req) := VotingPanel.loadVotingStatus (props w) (panel w) in
  {| props := props w; panel := st; voteModal := voteModal w;
     instances := instances w; closeTimers := closeTimers w;
     statusRequests := S (statusRequests w);
     statusInFlight := (statusInFlight w ++ [statusRequests w])%list;
     votesInFlight := votesInFlight w;
     sent := (sent w ++ [req])%list |}.

(** The radio inputs are those of [proposal.options]. *)
Definition has_option (n : Z) (p : Proposal.t) : bool :=
  match Proposal.options p with
  | Some opts => existsb (fun o => option_number o =? n) opts
  | None => false
  end.

(** The event handlers. *)
Definition handle (w : World) (e : Event) : World :=
  match e with
  | LoadVotingStatus => initiateStatus w
  | StatusResponse seq r =>
      if mem_nat seq (statusInFlight w) then
        with_panel (VotingPanel.loadVotingStatus_settle r (panel w))
          (with_statusInFlight (remove_nat seq (statusInFlight w)) w)
      else w
  | ParentRender b =>
      with_props {| VotingPanel.proposal := VotingPanel.proposal (props w);
                    VotingPanel.isExpired := b |} w
  | ClickVoteDirectly =>
      (* the button exists in the active branch only and carries
         [disabled={isButtonDisabled}] *)
      if VotingPanel.isExpired (props w)
         || VotingPanel.isButtonDisabled (panel w)
      then w
      else with_panel (VotingPanel.handleVoteClick (panel w)) w
  | SelectOption n =>
      match voteModal w with
      | Some (i, m) =>
          if VoteModal.submitting m
             || negb (has_option n (VotingPanel.proposal (props w)))
          then w
          else with_voteModal (Some (i, VoteModal.setSelectedOption n m)) w
      | None => w
      end
  | SubmitVote =>
      match voteModal w with
      | Some (i, m) =>
          match VoteModal.handleSubmit (modalProps w) m with
          | (m', Some req) =>
              {| props := props w; panel := panel w;
                 voteModal := Some (i, m');
                 instances := instances w; closeTimers := closeTimers w;
                 statusRequests := statusRequests w;
                 statusInFlight := statusInFlight w;
                 votesInFlight := (votesInFlight w ++ [i])%list;
                 sent := (sent w ++ [req])%list |}
          | (m', None) => with_voteModal (Some (i, m')) w
          end
      | None => w
      end
  | BackdropClick =>
      (* [handleBackdropClick] calls [handleClose] unconditionally *)
      match voteModal w with
      | Some (i, m) =>
          with_closeTimers (S (closeTimers w))
            (with_voteModal (Some (i, VoteModal.handleClose m)) w)
      | None => w
      end
  | CloseButtonClick =>
      match voteModal w with
      | Some (i, m) =>
          if VoteModal.closeButtonDisabled m then w
          else
            with_closeTimers (S (closeTimers w))
              (with_voteModal (Some (i, VoteModal.handleClose m)) w)
      | None => w
      end
  | CloseTimeout =>
      (* [onClose={() => setShowVoteModal(false)}] *)
      match closeTimers w with
      | O => w
      | S n =>
          with_panel (VotingPanel.setShowVoteModal false (panel w))
            (with_closeTimers n w)
      end
  | VoteResponse i r =>
      if mem_nat i (votesInFlight w) then
        let w1 := with_votesInFlight (remove_nat i (votesInFlight w)) w in
        (* state setters reach the issuing instance only while it is
           mounted *)
        let w2 :=
          match voteModal w1 with
          | Some (j, m) =>
              if Nat.eqb i j then
                with_voteModal
                  (Some (j, fst (VoteModal.handleSubmit_settle r m))) w1
              else w1
          | None => w1
          end in
        match r with
        | Ok _ =>
            (* [onSuccess()] is the panel's [handleModalSuccess], which
               calls [loadVotingStatus()]; [handleClose()] arms the timer *)
            with_closeTimers (S (closeTimers w2)) (initiateStatus w2)
        | NotOk _ => w2
        | Thrown => w2
        end
      else w
  end.

(** What React does after a handler: the deadline effect runs, and the
    modal is mounted or unmounted to match
    [!isExpired && showVoteModal]. *)
Definition render (w : World) : World :=
  let w' := with_panel (VotingPanel.deadlineEffect (props w) (panel w)) w in
  let wanted :=
    negb (VotingPanel.isExpired (props w'))
    && VotingPanel.showVoteModal (panel w') in
  match wanted, voteModal w' with
  | true, None =>
      {| props := props w'; panel := panel w';
         voteModal := Some (instances w', VoteModal.initial (modalProps w'));
         instances := S (instances w'); closeTimers := closeTimers w';
         statusRequests := statusRequests w';
         statusInFlight := statusInFlight w';
         votesInFlight := votesInFlight w'; sent := sent w' |}
  | false, Some _ => with_voteModal None w'
  | _, _ => w'
  end.

Definition step (w : World) (e : Event) : World := render (handle w e).

Definition run (w : World) (evs : list Event) : World := fold_left step evs w.

(** Mounting the panel: initial state, then the mount effects, among them
    the first [loadVotingStatus()]. *)
Definition mount (p : VotingPanel.Props) : World :=
  render
    (initiateStatus
       {| props := p; panel := VotingPanel.initial p; voteModal := None;
          instances := O; closeTimers := O; statusRequests := O;
          statusInFlight := []; votesInFlight := []; sent := [] |}).

(** The deadline effect has run on the state the panel holds. *)
Definition effectFlushed (w : World) : Prop :=
  forall vs, VotingPanel.votingStatus (panel w) = Some vs ->
             VotingPanel.deadlinePassed (panel w) = negb (is_active vs).

(** Bookkeeping of the modal instances: an instance has at most one vote
    request in flight, in-flight requests belong to instances that were
    mounted, and the mounted instance is [submitting] while its request is
    in flight. *)
Definition instancesConsistent (w : World) : Prop :=
  NoDup (votesInFlight w)
  /\ (forall i, In i (votesInFlight w) -> (i < instances w)%nat)
  /\ (forall i m, voteModal w = Some (i, m) ->
                  (i < instances w)%nat
                  /\ (In i (votesInFlight w) -> VoteModal.submitting m = true)).

(** The vote requests issued so far. *)
Definition votesSent (w : World) : list Request :=
  filter (fun r => match r with POST_vote _ _ => true | _ => false end)
         (sent w).

End Session.

(** ** Concrete data for the examples below *)

Module Sample.

Definition option1 : ProposalOption :=
  {| option_number := 1; option_text := "Approve" |}.

Definition option2 : ProposalOption :=
  {| option_number := 2; option_text := "Reject" |}.

(** A proposal whose deadline is 30 minutes after time 0. *)
Definition proposal : Proposal.t :=
  {| Proposal.proposal_id := "p1";
     Proposal.title := "Budget";
     Proposal.created_by := "alice";
     Proposal.voting_deadline := 1800000;
     Proposal.options := Some [option1; option2] |}.

(** A proposal that was loaded without options. *)
Definition bare_proposal : Proposal.t :=
  {| Proposal.proposal_id := "p2";
     Proposal.title := "Draft";
     Proposal.created_by := "alice";
     Proposal.voting_deadline := 1800000;
     Proposal.options := Some [] |}.

(** The user has neither voted nor delegated. *)
Definition not_acted : VotingStatus :=
  {| has_voted := false; has_delegated := false; voted_option := None;
     delegate_info := None; selected_option := None; can_act := true;
     cooldown_active := false |}.

(** The user has voted for option 2. *)
Definition voted2 : VotingStatus :=
  {| has_voted := true; has_delegated := false; voted_option := Some 2;
     delegate_info := None; selected_option := Some option2;
     can_act := true; cooldown_active := true |}.

(** A voting-status response. *)
Definition response (active : bool) (us : VotingStatus) : VotingStatusData :=
  {| proposal_title := "Budget"; time_remaining_seconds := 1800;
     is_active := active; user_status := us;
     options := [option1; option2] |}.

Definition suggest_option2 : Suggestion :=
  {| suggestion_id := "s1"; suggestion_type := vote_option;
     target_option_number := Some 2; target_user := None;
     created_at := 0; users := None; proposal_option := Some option2 |}.

Definition suggest_bob : Suggestion :=
  {| suggestion_id := "s2"; suggestion_type := delegate;
     target_option_number := None; target_user := Some "bob";
     created_at := 0; users := None; proposal_option := None |}.

Definition delegated_to_bob : VotingStatus :=
  {| has_voted := false; has_delegated := true; voted_option := None;
     delegate_info := Some {| unique_id := "bob"; name := "Bob D" |};
     selected_option := None; can_act := true; cooldown_active := true |}.

(** The panel of [proposal], not expired by the page's clock. *)
Definition props : VotingPanel.Props :=
  {| VotingPanel.proposal := proposal; VotingPanel.isExpired := false |}.

(** A delegate modal in which "bob" was typed while the organization
    user list is empty (not loaded, or loaded without him). *)
Definition typed_bob : DelegateModal.State :=
  {| DelegateModal.isVisible := true;
     DelegateModal.targetUser := "bob";
     DelegateModal.submitting := false;
     DelegateModal.organizationUsers := [];
     DelegateModal.loadingUsers := false;
     DelegateModal.showDropdown := true |}.

Definition carol : OrganizationUser.t :=
  {| OrganizationUser.unique_id := "Carol";
     OrganizationUser.first_name := "Carol";
     OrganizationUser.last_name := "K" |}.

(** The same modal after " carol " was typed, with Carol in the list. *)
Definition typed_carol : DelegateModal.State :=
  {| DelegateModal.isVisible := true;
     DelegateModal.targetUser := " carol ";
     DelegateModal.submitting := false;
     DelegateModal.organizationUsers := [carol];
     DelegateModal.loadingUsers := false;
     DelegateModal.showDropdown := true |}.

Definition delegateProps : DelegateModal.Props :=
  {| DelegateModal.proposal := proposal;
     DelegateModal.currentDelegate := None |}.

Definition voteProps (p : Proposal.t) : VoteModal.Props :=
  {| VoteModal.proposal := p; VoteModal.currentVote := None |}.

End Sample.

(** ** More concrete data *)

Module MoreSamples.

(** A proposal whose deadline is 24 hours after time 0. *)
Definition tomorrow : Proposal.t :=
  {| Proposal.proposal_id := "p3";
     Proposal.title := "Roadmap";
     Proposal.created_by := "alice";
     Proposal.voting_deadline := 86400000;
     Proposal.options := Some [Sample.option1; Sample.option2] |}.

Definition alice_category : Category.t :=
  {| Category.category_id := "c1";
     Category.title := "Finance";
     Category.created_by := "alice" |}.

(** The suggestion form filled in for a delegation to " bob ". *)
Definition delegate_form : SuggestionForm.FormData :=
  {| SuggestionForm.category_id := "c1";
     SuggestionForm.suggestion_type := delegate;
     SuggestionForm.target_option_number := 1;
     SuggestionForm.target_user := " bob " |}.

(** The user has voted and has delegated, with both details present. *)
Definition voted_and_delegated : VotingStatus :=
  {| has_voted := true; has_delegated := true; voted_option := Some 2;
     delegate_info := Some {| unique_id := "bob"; name := "Bob D" |};
     selected_option := Some Sample.option2; can_act := true;
     cooldown_active := false |}.


(** Results in which option 2 won with 3 of 5 units of voting power. *)
Definition results : ResultsVisualization.VoteResults :=
  {| ResultsVisualization.optionResults := [("1", 2%Q); ("2", 3%Q)];
     ResultsVisualization.metadata :=
       {| ResultsVisualization.totalVotingPower := 5%Q;
          ResultsVisualization.totalVotesCast := 4%Q;
          ResultsVisualization.winningOption := Some 2 |} |}.


End MoreSamples.

(** Case analysis over the branches of a handler. *)
Ltac case_handlers :=
  repeat (simpl;
          match goal with
          | |- context [match ?x with _ => _ end] => destruct x
          end);
  simpl; try reflexivity.

(** * Examples *)

Example status_30min :
  ProposalDetailPage.getProposalStatus 0 1800000 = "ENDING SOON".
Proof. reflexivity. Qed.

Example remaining_30min :
  ProposalDetailPage.getTimeRemaining 0 1800000 = "30 minutes left".
Proof. reflexivity. Qed.

Example remaining_20s :
  ProposalDetailPage.getTimeRemaining 0 20000 = "1 minutes left".
Proof. reflexivity. Qed.

Example remaining_2days :
  ProposalDetailPage.getTimeRemaining 0 (2 * 86400000 + 5) = "2 days left".
Proof. reflexivity. Qed.

Example trim_ex : Js.trim "  Bob " = "Bob".
Proof. reflexivity. Qed.

Example lower_ex : Js.toLowerCase "Bob.D" = "bob.d".
Proof. reflexivity. Qed.

(** * Properties *)

(** ** Deadline classification *)

Section Deadline.

Import ProposalDetailPage.

Lemma getProposalStatus_cases (now d : Z) :
  (d - now <= 0 /\ getProposalStatus now d = "EXPIRED")
  \/ (0 < d - now < 25 * (1000 * 60 * 60) /\ getProposalStatus now d = "ENDING SOON")
  \/ (25 * (1000 * 60 * 60) <= d - now /\ getProposalStatus now d = "ACTIVE").
Proof.
  unfold getProposalStatus.
  destruct (Z.leb_spec (d - now) 0) as [H0 | H0]; [left; split; [lia | reflexivity] |].
  right.
  destruct (Z.leb_spec ((d - now) / (1000 * 60 * 60)) 24) as [H1 | H1].
  - left. split; [| reflexivity].
    split; [lia |].
    apply Z.nle_gt. intro Hge.
    assert (25 <= (d - now) / (1000 * 60 * 60)) by (apply Z.div_le_lower_bound; lia).
    lia.
  - right. split; [| reflexivity].
    apply Z.nlt_ge. intro Hlt.
    assert ((d - now) / (1000 * 60 * 60) < 25) by (apply Z.div_lt_upper_bound; lia).
    lia.
Qed.

(** C2, amended: the classifier returns EXPIRED exactly when the deadline
    is at or before now; ENDING SOON exactly when the deadline is strictly
    in the future and the number of whole hours remaining (rounded down)
    is at most 24, that is when strictly fewer than 25 hours remain; and
    ACTIVE exactly when 25 hours or more remain. *)
Theorem getProposalStatus_thresholds (now d : Z) :
  (getProposalStatus now d = "EXPIRED" <-> d <= now)
  /\ (getProposalStatus now d = "ENDING SOON"
      <-> now < d /\ d - now < 25 * (1000 * 60 * 60))
  /\ (getProposalStatus now d = "ACTIVE"
      <-> 25 * (1000 * 60 * 60) <= d - now).
Proof.
  destruct (getProposalStatus_cases now d) as [[H E] | [[H E] | [H E]]];
    rewrite E;
    repeat split; intros; try discriminate; try lia.
Qed.

(** C2 as stated fails: one millisecond past 24 hours before the deadline
    the classifier still answers ENDING SOON, although more than 24 hours
    remain. *)
Lemma getProposalStatus_not_24h :
  ~ (forall now d,
        (getProposalStatus now d = "EXPIRED" <-> d <= now)
        /\ (getProposalStatus now d = "ENDING SOON"
            <-> now < d /\ d - now <= 24 * (1000 * 60 * 60))
        /\ (getProposalStatus now d <> "EXPIRED"
            -> getProposalStatus now d <> "ENDING SOON"
            -> getProposalStatus now d = "ACTIVE")).
Proof.
  intro H.
  destruct (H 0 (24 * (1000 * 60 * 60) + 1)) as (_ & [Hsoon _] & _).
  assert (E : getProposalStatus 0 (24 * (1000 * 60 * 60) + 1) = "ENDING SOON")
    by reflexivity.
  apply Hsoon in E. lia.
Qed.

(** C6: suggestions can be created exactly when the deadline is strictly
    more than 60 minutes after now; with exactly 60 minutes left the
    answer is false. *)
Theorem canCreateSuggestions_iff (now d : Z) :
  (canCreateSuggestions now d = true <-> now + 60 * 60 * 1000 < d)
  /\ canCreateSuggestions now (now + 60 * 60 * 1000) = false.
Proof.
  unfold canCreateSuggestions. split.
  - rewrite Z.gtb_ltb, Z.ltb_lt. reflexivity.
  - rewrite Z.gtb_ltb. apply Z.ltb_irrefl.
Qed.

Lemma number_to_string_head (n : Z) :
  exists c s, Js.number_to_string n = String c s /\ c <> "V"%char.
Proof.
  unfold Js.number_to_string, NilZero.string_of_int.
  destruct (Z.to_int n) as [u | u].
  - unfold NilZero.string_of_uint.
    destruct u; simpl; eexists; eexists; (split; [reflexivity | discriminate]).
  - eexists; eexists; (split; [reflexivity | discriminate]).
Qed.

Lemma number_prefix_not_ended (n : Z) (rest : string) :
  Js.number_to_string n ++ rest <> "Voting has ended".
Proof.
  destruct (number_to_string_head n) as (c & s & E & Hc).
  rewrite E. simpl. intro H. injection H as Hhead _. contradiction.
Qed.

(** The three shapes of a remaining-time text for a deadline in the
    future. *)
Lemma getTimeRemaining_future (now d : Z) :
  0 < d - now ->
  exists n unit,
    1 <= n
    /\ In unit ["day"; "days"; "hour"; "hours"; "minute"; "minutes"]
    /\ getTimeRemaining now d
       = Js.number_to_string n ++ " " ++ unit ++ " left".
Proof.
  intro Hpos. unfold getTimeRemaining.
  destruct (Z.leb_spec (d - now) 0) as [H0 | _]; [lia |].
  destruct (Z.gtb_spec ((d - now) / (1000 * 60 * 60 * 24)) 0) as [Hd | Hd].
  - exists ((d - now) / (1000 * 60 * 60 * 24)).
    destruct (Z.eqb_spec ((d - now) / (1000 * 60 * 60 * 24)) 1) as [E1 | E1].
    + exists "day". split; [lia |]. split; [simpl; tauto | reflexivity].
    + exists "days". split; [lia |]. split; [simpl; tauto | reflexivity].
  - destruct (Z.gtb_spec ((d - now) / (1000 * 60 * 60)) 0) as [Hh | Hh].
    + exists ((d - now) / (1000 * 60 * 60)).
      destruct (Z.eqb_spec ((d - now) / (1000 * 60 * 60)) 1) as [E1 | E1].
      * exists "hour". split; [lia |]. split; [simpl; tauto | reflexivity].
      * exists "hours". split; [lia |]. split; [simpl; tauto | reflexivity].
    + exists (Z.max 1 ((d - now) / (1000 * 60))).
      destruct (Z.eqb_spec ((d - now) / (1000 * 60)) 1) as [E1 | E1].
      * exists "minute". split; [lia |]. split; [simpl; tauto | reflexivity].
      * exists "minutes". split; [lia |]. split; [simpl; tauto | reflexivity].
Qed.

(** C10: for a fixed current time the two deadline functions agree: the
    status is EXPIRED exactly when the remaining-time text is "Voting has
    ended", and when the status is ACTIVE or ENDING SOON the text is
    "N day(s)/hour(s)/minute(s) left" for a number N >= 1. *)
Theorem status_agrees_with_time_remaining (now d : Z) :
  (getProposalStatus now d = "EXPIRED"
   <-> getTimeRemaining now d = "Voting has ended")
  /\ (getProposalStatus now d = "ACTIVE"
      \/ getProposalStatus now d = "ENDING SOON" ->
      exists n unit,
        1 <= n
        /\ In unit ["day"; "days"; "hour"; "hours"; "minute"; "minutes"]
        /\ getTimeRemaining now d
           = Js.number_to_string n ++ " " ++ unit ++ " left").
Proof.
  destruct (getProposalStatus_cases now d) as [[H E] | [[H E] | [H E]]];
    rewrite E.
  - split.
    + split; [intros _ | reflexivity].
      unfold getTimeRemaining.
      destruct (Z.leb_spec (d - now) 0); [reflexivity | lia].
    + intros [A | A]; discriminate.
  - assert (Hpos : 0 < d - now) by lia.
    destruct (getTimeRemaining_future now d Hpos) as (n & u & Hn & Hu & Ht).
    split.
    + split; [discriminate |].
      rewrite Ht. intro A. exfalso. exact (number_prefix_not_ended _ _ A).
    + intros _. exists n, u. auto.
  - assert (Hpos : 0 < d - now) by lia.
    destruct (getTimeRemaining_future now d Hpos) as (n & u & Hn & Hu & Ht).
    split.
    + split; [discriminate |].
      rewrite Ht. intro A. exfalso. exact (number_prefix_not_ended _ _ A).
    + intros _. exists n, u. auto.
Qed.

Lemma status_agrees_with_time_remaining_witness :
  exists n unit,
    1 <= n
    /\ In unit ["day"; "days"; "hour"; "hours"; "minute"; "minutes"]
    /\ getTimeRemaining 0 5400000
       = Js.number_to_string n ++ " " ++ unit ++ " left".
Proof.
  apply (proj2 (status_agrees_with_time_remaining 0 5400000)).
  right. reflexivity.
Defined.

End Deadline.

(** ** Applied detection *)

Section Applied.

Import SuggestionDisplay.

Lemma strict_eq_number_true (a b : option Z) :
  strict_eq_number a b = true <-> a = b.
Proof.
  destruct a as [x |], b as [y |]; simpl;
    try (split; [discriminate | discriminate]); try tauto.
  rewrite Z.eqb_eq. split; [intros -> | intros [= ->]]; reflexivity.
Qed.

Lemma strict_eq_string_true (a b : option string) :
  strict_eq_string a b = true <-> a = b.
Proof.
  destruct a as [x |], b as [y |]; simpl;
    try (split; [discriminate | discriminate]); try tauto.
  rewrite String.eqb_eq. split; [intros -> | intros [= ->]]; reflexivity.
Qed.

(** C3: a [vote_option] suggestion is applied exactly when the status is
    known, [has_voted] is true and [voted_option] equals the suggestion's
    [target_option_number]; a [delegate] suggestion exactly when the
    status is known, [has_delegated] is true and
    [delegate_info.unique_id] equals the suggestion's [target_user]; with
    an absent status no suggestion is applied. *)
Theorem isSuggestionApplied_spec
    (status : option VotingStatus) (s : Suggestion) :
  (suggestion_type s = vote_option ->
   (isSuggestionApplied status s = true
    <-> exists st, status = Some st /\ has_voted st = true
                   /\ voted_option st = target_option_number s))
  /\ (suggestion_type s = delegate ->
      (isSuggestionApplied status s = true
       <-> exists st, status = Some st /\ has_delegated st = true
                      /\ option_map unique_id (delegate_info st)
                         = target_user s))
  /\ isSuggestionApplied None s = false.
Proof.
  split; [| split]; [intro Ht | intro Ht | reflexivity];
    unfold isSuggestionApplied; rewrite Ht;
    (destruct status as [st |];
     [| split; [discriminate | intros (st & [=] & _)]]).
  - rewrite andb_true_iff, strict_eq_number_true. split.
    + intros [Hv He]. exists st. auto.
    + intros (st' & [= <-] & Hv & He). auto.
  - rewrite andb_true_iff, strict_eq_string_true. split.
    + intros [Hv He]. exists st. auto.
    + intros (st' & [= <-] & Hv & He). auto.
Qed.

Lemma isSuggestionApplied_spec_witness :
  isSuggestionApplied (Some Sample.voted2) Sample.suggest_option2 = true
  /\ isSuggestionApplied (Some Sample.delegated_to_bob) Sample.suggest_bob
     = true.
Proof.
  split.
  - apply (proj1 (isSuggestionApplied_spec (Some Sample.voted2)
                    Sample.suggest_option2) eq_refl).
    exists Sample.voted2. repeat split.
  - apply (proj1 (proj2 (isSuggestionApplied_spec
                           (Some Sample.delegated_to_bob)
                           Sample.suggest_bob)) eq_refl).
    exists Sample.delegated_to_bob. repeat split.
Defined.

End Applied.

(** ** The action controls of the panel *)

Section Controls.

Import VotingPanel.

(** C7: the vote and delegate buttons (both carry [isButtonDisabled]) are
    enabled exactly when the deadline has not passed and the snapshot
    reports no active cooldown; if the deadline has passed or
    [cooldown_active] is true they are disabled. *)
Theorem isButtonDisabled_iff (st : State) :
  (isButtonDisabled st = false
   <-> deadlinePassed st = false
       /\ forall vs, votingStatus st = Some vs ->
                     cooldown_active (user_status vs) = false)
  /\ (deadlinePassed st = true
      \/ (exists vs, votingStatus st = Some vs
                     /\ cooldown_active (user_status vs) = true) ->
      isButtonDisabled st = true).
Proof.
  unfold isButtonDisabled, cooldown.
  destruct st as [vs l dp sv sd]; simpl.
  destruct dp; simpl.
  - split; [split; [discriminate | intros [[=] _]] | reflexivity].
  - destruct vs as [d |].
    + rewrite andb_true_r. split.
      * split.
        -- intro H. split; [reflexivity | intros ? [= <-]; exact H].
        -- intros [_ H]. apply H. reflexivity.
      * intros [[=] | (d' & [= <-] & H)]. exact H.
    + split.
      * split; [intros _; split; [reflexivity | discriminate] | reflexivity].
      * intros [[=] | (d' & [=] & _)].
Qed.

Lemma isButtonDisabled_iff_witness :
  isButtonDisabled
    (setVotingStatus (Some (Sample.response true Sample.voted2))
       (initial Sample.props)) = true.
Proof.
  apply (proj2 (isButtonDisabled_iff _)).
  right. exists (Sample.response true Sample.voted2).
  split; reflexivity.
Defined.

End Controls.

(** ** The status store: refresh ordering, expiry, failed refreshes *)

Section StatusStore.

Import VotingPanel Session.

Lemma deadlineEffect_votingStatus (p : Props) (st : State) :
  votingStatus (deadlineEffect p st) = votingStatus st.
Proof.
  unfold deadlineEffect.
  destruct (votingStatus st) eqn:E; [simpl; exact E |].
  destruct (isExpired p); simpl; exact E.
Qed.

Lemma deadlineEffect_statusLoading (p : Props) (st : State) :
  statusLoading (deadlineEffect p st) = statusLoading st.
Proof.
  unfold deadlineEffect.
  destruct (votingStatus st); [reflexivity |].
  destruct (isExpired p); reflexivity.
Qed.

Lemma deadlineEffect_deadlinePassed (p : Props) (st : State) :
  deadlinePassed (deadlineEffect p st)
  = match votingStatus st with
    | Some vs => negb (is_active vs)
    | None => isExpired p || deadlinePassed st
    end.
Proof.
  unfold deadlineEffect.
  destruct (votingStatus st); [reflexivity |].
  destruct (isExpired p); reflexivity.
Qed.

Lemma render_panel (w : World) :
  panel (render w) = deadlineEffect (props w) (panel w).
Proof.
  unfold render.
  destruct (negb _ && _); simpl; destruct (voteModal w); reflexivity.
Qed.

Lemma render_props (w : World) : props (render w) = props w.
Proof.
  unfold render.
  destruct (negb _ && _); simpl; destruct (voteModal w); reflexivity.
Qed.

Lemma render_statusInFlight (w : World) :
  statusInFlight (render w) = statusInFlight w.
Proof.
  unfold render.
  destruct (negb _ && _); simpl; destruct (voteModal w); reflexivity.
Qed.

Lemma mem_nat_In (n : nat) (l : list nat) : mem_nat n l = true <-> In n l.
Proof.
  unfold mem_nat. rewrite existsb_exists. split.
  - intros (m & Hin & E). apply Nat.eqb_eq in E. subst. exact Hin.
  - intro Hin. exists n. split; [exact Hin | apply Nat.eqb_refl].
Qed.

Lemma remove_nat_In (n m : nat) (l : list nat) :
  In m (remove_nat n l) <-> In m l /\ n <> m.
Proof.
  unfold remove_nat. rewrite filter_In, negb_true_iff, Nat.eqb_neq.
  reflexivity.
Qed.

(** What a delivered status response leaves in the panel. *)
Lemma step_StatusResponse (w : World) (seq : nat)
      (r : FetchResult VotingStatusData) :
  In seq (statusInFlight w) ->
  votingStatus (panel (step w (StatusResponse seq r))) = stored r
  /\ statusLoading (panel (step w (StatusResponse seq r))) = false
  /\ statusInFlight (step w (StatusResponse seq r))
     = remove_nat seq (statusInFlight w)
  /\ props (step w (StatusResponse seq r)) = props w
  /\ deadlinePassed (panel (step w (StatusResponse seq r)))
     = match stored r with
       | Some vs => negb (is_active vs)
       | None => isExpired (props w) || deadlinePassed (panel w)
       end.
Proof.
  intro Hin. apply mem_nat_In in Hin.
  unfold step.
  rewrite render_panel, render_statusInFlight, render_props.
  rewrite deadlineEffect_votingStatus, deadlineEffect_statusLoading,
    deadlineEffect_deadlinePassed.
  simpl. rewrite Hin. simpl. repeat split; reflexivity.
Qed.

(** A response for a request that is not in flight changes nothing the
    store holds. *)
Lemma handle_StatusResponse_unknown (w : World) (seq : nat)
      (r : FetchResult VotingStatusData) :
  ~ In seq (statusInFlight w) -> handle w (StatusResponse seq r) = w.
Proof.
  intro Hn. simpl.
  destruct (mem_nat seq (statusInFlight w)) eqn:E; [| reflexivity].
  apply mem_nat_In in E. contradiction.
Qed.

(** C1, amended: of two status responses, the one processed last is the
    one that stays stored, whichever of the two requests was initiated
    first; no response is discarded.  The same holds for the copy of the
    status the page keeps. *)
Theorem last_processed_response_is_stored
    (w : World) (i j : nat) (ri rj : FetchResult VotingStatusData)
    (pageStatus : option VotingStatusData) :
  In i (statusInFlight w) -> In j (statusInFlight w) -> i <> j ->
  votingStatus (panel (run w [StatusResponse i ri; StatusResponse j rj]))
  = stored rj
  /\ ProposalDetailPage.loadVotingStatus_settle rj
       (ProposalDetailPage.loadVotingStatus_settle ri pageStatus)
     = stored rj.
Proof.
  intros Hi Hj Hij. split; [| reflexivity].
  simpl.
  destruct (step_StatusResponse w i ri Hi) as (_ & _ & Hfl & _).
  apply step_StatusResponse.
  rewrite Hfl. apply remove_nat_In. auto.
Qed.

Lemma last_processed_response_is_stored_witness :
  votingStatus
    (panel (run (step (mount Sample.props) LoadVotingStatus)
              [StatusResponse 1 (Ok (Sample.response true Sample.voted2));
               StatusResponse 0 (Ok (Sample.response true Sample.not_acted))]))
  = Some (Sample.response true Sample.not_acted)
  /\ ProposalDetailPage.loadVotingStatus_settle
       (Ok (Sample.response true Sample.not_acted))
       (ProposalDetailPage.loadVotingStatus_settle
          (Ok (Sample.response true Sample.voted2)) None)
     = Some (Sample.response true Sample.not_acted).
Proof.
  apply (last_processed_response_is_stored
           (step (mount Sample.props) LoadVotingStatus) 1 0
           (Ok (Sample.response true Sample.voted2))
           (Ok (Sample.response true Sample.not_acted)) None).
  - simpl. auto.
  - simpl. auto.
  - discriminate.
Defined.

(** C1 as stated fails: two refreshes are in flight, number 0 initiated
    before number 1; the response to number 1 (the user has voted) arrives
    first, the response to number 0 (not acted yet) second, and the older
    result is what stays stored. *)
Lemma stale_status_response_overwrites :
  ~ (forall (w : World) (i j : nat) (ri rj : FetchResult VotingStatusData)
            (order : list Event),
        In i (statusInFlight w) -> In j (statusInFlight w) -> (i < j)%nat ->
        order = [StatusResponse i ri; StatusResponse j rj]
        \/ order = [StatusResponse j rj; StatusResponse i ri] ->
        votingStatus (panel (run w order)) = stored rj).
Proof.
  intro H.
  specialize (H (step (mount Sample.props) LoadVotingStatus) 0%nat 1%nat
                (Ok (Sample.response true Sample.not_acted))
                (Ok (Sample.response true Sample.voted2))
                [StatusResponse 1 (Ok (Sample.response true Sample.voted2));
                 StatusResponse 0 (Ok (Sample.response true Sample.not_acted))]).
  assert (E : votingStatus
                (panel (run (step (mount Sample.props) LoadVotingStatus)
                   [StatusResponse 1 (Ok (Sample.response true Sample.voted2));
                    StatusResponse 0
                      (Ok (Sample.response true Sample.not_acted))]))
              = Some (Sample.response true Sample.not_acted))
    by reflexivity.
  rewrite E in H.
  assert (A : Some (Sample.response true Sample.not_acted)
              = stored (Ok (Sample.response true Sample.voted2))).
  { apply H; simpl; auto. }
  discriminate A.
Qed.

(** *** Expiry *)

Lemma effectFlushed_render (w : World) : effectFlushed (render w).
Proof.
  unfold effectFlushed. intros vs.
  rewrite render_panel, deadlineEffect_votingStatus,
    deadlineEffect_deadlinePassed.
  intro E. rewrite E. reflexivity.
Qed.

Lemma effectFlushed_run (evs : list Event) :
  forall w, effectFlushed w -> effectFlushed (run w evs).
Proof.
  induction evs as [| e evs IH]; intros w Hw; simpl; [exact Hw |].
  apply IH. apply effectFlushed_render.
Qed.

Lemma effectFlushed_reachable (p : Props) (evs : list Event) :
  effectFlushed (run (mount p) evs).
Proof. apply effectFlushed_run. apply effectFlushed_render. Qed.

(** No handler writes [deadlinePassed]; only the effect does. *)
Lemma handle_deadlinePassed (w : World) (e : Event) :
  deadlinePassed (panel (handle w e)) = deadlinePassed (panel w).
Proof. destruct e; case_handlers. Qed.

(** Only a delivered status response writes [votingStatus]. *)
Lemma handle_votingStatus (w : World) (e : Event) :
  (forall seq r, e = StatusResponse seq r -> ~ In seq (statusInFlight w)) ->
  votingStatus (panel (handle w e)) = votingStatus (panel w).
Proof.
  intro Hn. destruct e; try solve [case_handlers].
  rewrite handle_StatusResponse_unknown; [reflexivity |].
  apply (Hn seq r). reflexivity.
Qed.

Lemma step_keeps_deadlinePassed (w : World) (e : Event) :
  effectFlushed w ->
  (forall seq r, e = StatusResponse seq r -> ~ In seq (statusInFlight w)) ->
  deadlinePassed (panel w) = true ->
  deadlinePassed (panel (step w e)) = true.
Proof.
  intros Hw Hn Hd. unfold step.
  rewrite render_panel, deadlineEffect_deadlinePassed.
  rewrite handle_votingStatus by exact Hn.
  rewrite handle_deadlinePassed, Hd.
  destruct (votingStatus (panel w)) as [vs |] eqn:E.
  - rewrite <- (Hw vs E). exact Hd.
  - apply orb_true_r.
Qed.

(** C8, amended: once [deadlinePassed] holds, an event resets it exactly
    when it is the delivery of a successful status response whose
    [is_active] flag is true; every other event leaves the view expired. *)
Theorem deadlinePassed_reset_iff_active_response
    (p : Props) (evs : list Event) (e : Event) :
  deadlinePassed (panel (run (mount p) evs)) = true ->
  (deadlinePassed (panel (step (run (mount p) evs) e)) = false
   <-> exists seq d,
         e = StatusResponse seq (Ok d)
         /\ In seq (statusInFlight (run (mount p) evs))
         /\ is_active d = true).
Proof.
  intro Hd.
  pose proof (effectFlushed_reachable p evs) as Hw.
  set (w := run (mount p) evs) in *.
  assert (Hother :
            (forall seq r, e = StatusResponse seq r ->
                           ~ In seq (statusInFlight w)) ->
            deadlinePassed (panel (step w e)) = false
            <-> exists seq d,
                  e = StatusResponse seq (Ok d)
                  /\ In seq (statusInFlight w) /\ is_active d = true).
  { intro Hn. rewrite (step_keeps_deadlinePassed w e Hw Hn Hd). split.
    - discriminate.
    - intros (seq & d & -> & Hin & _). exfalso. exact (Hn _ _ eq_refl Hin). }
  destruct e as [| seq r | | | | | | | |];
    try solve [apply Hother; intros ? ? [=]].
  destruct (in_dec Nat.eq_dec seq (statusInFlight w)) as [Hin | Hout].
  - destruct (step_StatusResponse w seq r Hin) as (_ & _ & _ & _ & Hdp).
    rewrite Hdp. destruct r as [d | c |]; simpl.
    + rewrite negb_false_iff. split.
      * intro Ha. exists seq, d. auto.
      * intros (? & ? & [= <- <-] & _ & Ha). exact Ha.
    + rewrite Hd, orb_true_r.
      split; [discriminate | intros (? & ? & [=] & _)].
    + rewrite Hd, orb_true_r.
      split; [discriminate | intros (? & ? & [=] & _)].
  - apply Hother. intros ? ? [= <- <-]. exact Hout.
Qed.

Lemma deadlinePassed_reset_iff_active_response_witness :
  deadlinePassed
    (panel (step (run (mount Sample.props)
                    [StatusResponse 0 (Ok (Sample.response false Sample.voted2));
                     LoadVotingStatus])
                 (StatusResponse 1 (Ok (Sample.response true Sample.voted2)))))
  = false.
Proof.
  apply (proj2 (deadlinePassed_reset_iff_active_response Sample.props
                  [StatusResponse 0 (Ok (Sample.response false Sample.voted2));
                   LoadVotingStatus]
                  (StatusResponse 1 (Ok (Sample.response true Sample.voted2)))
                  eq_refl)).
  exists 1%nat, (Sample.response true Sample.voted2).
  repeat split. simpl. auto.
Defined.

(** C8 as stated fails: the panel is mounted for a proposal that is not
    expired, the first status response reports [is_active = false] and the
    view shows "Voting has ended"; a later response reporting
    [is_active = true] puts it back into the non-expired state. *)
Lemma expired_view_can_be_left :
  ~ (forall (p : Props) (evs : list Event) (e : Event),
        deadlinePassed (panel (run (mount p) evs)) = true ->
        deadlinePassed (panel (step (run (mount p) evs) e)) = true).
Proof.
  intro H.
  specialize (H Sample.props
                [StatusResponse 0 (Ok (Sample.response false Sample.voted2));
                 LoadVotingStatus]
                (StatusResponse 1 (Ok (Sample.response true Sample.voted2)))
                eq_refl).
  discriminate H.
Qed.

(** *** Failed refreshes *)

(** C9, amended: when a status refresh fails, the stored status becomes
    [null]; the status display then reads "Unable to load voting status",
    which differs from "You haven't participated yet"; no suggestion is
    shown as applied.  Action eligibility is not suppressed: the vote and
    delegate buttons are disabled only if the deadline has passed, and an
    Apply button that is not busy only if voting is no longer active. *)
Theorem failed_refresh_stores_unknown
    (p : Props) (st : State) (r r' : FetchResult VotingStatusData)
    (pageStatus : option VotingStatusData) (now : Z) (s : Suggestion) :
  failed r -> failed r' ->
  votingStatus (deadlineEffect p (loadVotingStatus_settle r st)) = None
  /\ statusView (deadlineEffect p (loadVotingStatus_settle r st))
     = VotingStatusComponent.UnableToLoad
  /\ VotingStatusComponent.caption VotingStatusComponent.UnableToLoad
     <> VotingStatusComponent.caption VotingStatusComponent.NotParticipated
  /\ SuggestionDisplay.isSuggestionApplied
       (ProposalDetailPage.userVotingStatus
          (ProposalDetailPage.loadVotingStatus_settle r' pageStatus)) s
     = false
  /\ isButtonDisabled (deadlineEffect p (loadVotingStatus_settle r st))
     = (isExpired p || deadlinePassed st)
  /\ SuggestionDisplay.applyDisabled now (proposal p)
       (ProposalDetailPage.userVotingStatus
          (ProposalDetailPage.loadVotingStatus_settle r' pageStatus)) false s
     = negb (SuggestionDisplay.isVotingActive now (proposal p)).
Proof.
  intros Fr Fr'.
  assert (Hr : stored r = None) by (destruct r; [destruct Fr | | ]; reflexivity).
  assert (Hr' : stored r' = None)
    by (destruct r'; [destruct Fr' | | ]; reflexivity).
  unfold ProposalDetailPage.loadVotingStatus_settle. rewrite Hr'. simpl.
  unfold statusView, isButtonDisabled, cooldown.
  rewrite deadlineEffect_votingStatus, deadlineEffect_statusLoading,
    deadlineEffect_deadlinePassed.
  unfold loadVotingStatus_settle. simpl. rewrite Hr. simpl.
  repeat split.
  - discriminate.
  - apply orb_false_r.
  - unfold SuggestionDisplay.applyDisabled. simpl. apply orb_false_r.
Qed.

Lemma failed_refresh_stores_unknown_witness :
  isButtonDisabled
    (deadlineEffect Sample.props
       (loadVotingStatus_settle (NotOk 500) (initial Sample.props)))
  = false.
Proof.
  exact (proj1 (proj2 (proj2 (proj2 (proj2
           (failed_refresh_stores_unknown Sample.props (initial Sample.props)
              (NotOk 500) Thrown None 0 Sample.suggest_option2
              I I)))))).
Defined.

(** C9 as stated fails in its last part: after a failed refresh of the
    status of a proposal that is not expired, both action buttons are
    enabled. *)
Lemma unknown_status_leaves_controls_enabled :
  ~ (forall (p : Props) (st : State) (r : FetchResult VotingStatusData),
        failed r ->
        votingStatus (deadlineEffect p (loadVotingStatus_settle r st)) = None
        /\ statusView (deadlineEffect p (loadVotingStatus_settle r st))
           = VotingStatusComponent.UnableToLoad
        /\ (forall s,
               SuggestionDisplay.isSuggestionApplied
                 (option_map user_status
                    (votingStatus
                       (deadlineEffect p (loadVotingStatus_settle r st)))) s
               = false)
        /\ isButtonDisabled (deadlineEffect p (loadVotingStatus_settle r st))
           = true).
Proof.
  intro H.
  destruct (H Sample.props (initial Sample.props) Thrown I)
    as (_ & _ & _ & Hdis).
  discriminate Hdis.
Qed.

End StatusStore.

(** ** Submitting a vote or a delegation *)

Section Submission.

Import Session.

Lemma truthy_string_iff (s : string) : Js.truthy_string s = true <-> s <> "".
Proof. destruct s; simpl; split; congruence. Qed.

Lemma truthy_number_iff (n : Z) : Js.truthy_number n = true <-> n <> 0.
Proof.
  unfold Js.truthy_number. rewrite negb_true_iff, Z.eqb_neq. reflexivity.
Qed.

(** [validation.valid] holds exactly for a non-empty trimmed target that
    is, up to case, the [unique_id] of a user of the loaded list. *)
Lemma validation_valid_iff (st : DelegateModal.State) :
  DelegateModal.valid (DelegateModal.validation st) = true
  <-> Js.trim (DelegateModal.targetUser st) <> ""
      /\ exists u,
           In u (DelegateModal.organizationUsers st)
           /\ Js.toLowerCase (OrganizationUser.unique_id u)
              = Js.toLowerCase (Js.trim (DelegateModal.targetUser st)).
Proof.
  unfold DelegateModal.validation.
  destruct (Js.truthy_string (Js.trim (DelegateModal.targetUser st))) eqn:Et;
    simpl.
  - apply truthy_string_iff in Et.
    destruct (existsb _ (DelegateModal.organizationUsers st)) eqn:Eu; simpl.
    + apply existsb_exists in Eu. destruct Eu as (u & Hin & He).
      apply String.eqb_eq in He.
      split; [intros _; split; [exact Et | exists u; auto] | reflexivity].
    + split; [discriminate |]. intros (_ & u & Hin & He).
      assert (Ht : existsb
                     (fun user =>
                        String.eqb
                          (Js.toLowerCase (OrganizationUser.unique_id user))
                          (Js.toLowerCase
                             (Js.trim (DelegateModal.targetUser st))))
                     (DelegateModal.organizationUsers st) = true).
      { apply existsb_exists. exists u. split; [exact Hin |].
        apply String.eqb_eq. exact He. }
      rewrite Ht in Eu. discriminate.
  - split; [discriminate |]. intros [Hne _].
    apply truthy_string_iff in Hne. rewrite Hne in Et. discriminate.
Qed.

(** C4, amended: before dispatching, the vote modal checks that the
    selected option number is set (not zero) and that no submission of its
    own is pending, and nothing else; the delegate modal checks that the
    trimmed target is not empty, that it is, up to case, the [unique_id] of
    a user of the loaded organization user list, and that no submission of
    its own is pending.  The request carries the selected option number,
    respectively the trimmed target. *)
Theorem handleSubmit_preconditions :
  (forall (p : VoteModal.Props) (st : VoteModal.State) (req : Request),
      snd (VoteModal.handleSubmit p st) = Some req
      <-> VoteModal.selectedOption st <> 0
          /\ VoteModal.submitting st = false
          /\ req = POST_vote (Proposal.proposal_id (VoteModal.proposal p))
                             (VoteModal.selectedOption st))
  /\ (forall (p : DelegateModal.Props) (st : DelegateModal.State)
             (req : Request),
         snd (DelegateModal.handleSubmit p st) = Some req
         <-> Js.trim (DelegateModal.targetUser st) <> ""
             /\ (exists u,
                    In u (DelegateModal.organizationUsers st)
                    /\ Js.toLowerCase (OrganizationUser.unique_id u)
                       = Js.toLowerCase
                           (Js.trim (DelegateModal.targetUser st)))
             /\ DelegateModal.submitting st = false
             /\ req = POST_delegate
                        (Proposal.proposal_id (DelegateModal.proposal p))
                        (Js.trim (DelegateModal.targetUser st))).
Proof.
  split; intros p st req.
  - unfold VoteModal.handleSubmit.
    destruct (Js.truthy_number (VoteModal.selectedOption st)) eqn:Et; simpl.
    + apply truthy_number_iff in Et.
      destruct (VoteModal.submitting st); simpl.
      * split; [discriminate | intros (_ & [=] & _)].
      * split; [intros [= <-]; auto | intros (_ & _ & ->); reflexivity].
    + split; [discriminate |]. intros (Hne & _).
      apply truthy_number_iff in Hne. rewrite Hne in Et. discriminate.
  - unfold DelegateModal.handleSubmit.
    pose proof (validation_valid_iff st) as Hv.
    destruct (DelegateModal.valid (DelegateModal.validation st)); simpl.
    + destruct (proj1 Hv eq_refl) as [Hne Hu].
      destruct (DelegateModal.submitting st); simpl.
      * split; [discriminate | intros (_ & _ & [=] & _)].
      * split; [intros [= <-]; auto | intros (_ & _ & _ & ->); reflexivity].
    + split; [discriminate |]. intros (Hne & Hu & _).
      assert (F : false = true) by (apply Hv; auto). discriminate F.
Qed.

(** C4 as stated fails twice.  The vote modal dispatches option 1 for a
    proposal that has no option 1; and the delegate modal does not
    dispatch the non-empty target "bob" when the client-side user list
    does not contain him. *)
Lemma submit_checks_differ_from_claim :
  ~ (forall (p : VoteModal.Props) (st : VoteModal.State) (id : string) (n : Z),
        snd (VoteModal.handleSubmit p st) = Some (POST_vote id n) ->
        has_option n (VoteModal.proposal p) = true)
  /\ ~ (forall (p : DelegateModal.Props) (st : DelegateModal.State),
           Js.trim (DelegateModal.targetUser st) <> "" ->
           DelegateModal.submitting st = false ->
           exists req, snd (DelegateModal.handleSubmit p st) = Some req).
Proof.
  split; intro H.
  - specialize (H (Sample.voteProps Sample.bare_proposal)
                  (VoteModal.initial (Sample.voteProps Sample.bare_proposal))
                  "p2" 1 eq_refl).
    discriminate H.
  - destruct (H Sample.delegateProps Sample.typed_bob) as [req Hreq].
    + discriminate.
    + reflexivity.
    + discriminate Hreq.
Qed.

(** Inside one modal instance a submission that is pending blocks the
    next one: the handler returns before [apiFetch]. *)
Lemma submitting_blocks_handleSubmit :
  (forall (p : VoteModal.Props) (st : VoteModal.State),
      VoteModal.submitting st = true ->
      VoteModal.handleSubmit p st = (st, None))
  /\ (forall (p : DelegateModal.Props) (st : DelegateModal.State),
         DelegateModal.submitting st = true ->
         DelegateModal.handleSubmit p st = (st, None)).
Proof.
  split; intros p st Hs.
  - unfold VoteModal.handleSubmit. rewrite Hs, orb_true_r. reflexivity.
  - unfold DelegateModal.handleSubmit. rewrite Hs, orb_true_r. reflexivity.
Qed.

(** A handler that leaves the in-flight votes and the instance counter
    alone, and the [submitting] flag of the mounted instance too, keeps the
    bookkeeping consistent. *)
Lemma instancesConsistent_same (w w' : World) :
  votesInFlight w' = votesInFlight w ->
  instances w' = instances w ->
  (forall i m', voteModal w' = Some (i, m') ->
                exists m, voteModal w = Some (i, m)
                          /\ VoteModal.submitting m' = VoteModal.submitting m) ->
  instancesConsistent w -> instancesConsistent w'.
Proof.
  intros Hv Hi Hm (Hnd & Hlt & Hmod).
  unfold instancesConsistent. rewrite Hv, Hi.
  split; [exact Hnd |]. split; [exact Hlt |].
  intros i m' E. destruct (Hm i m' E) as (m & Em & Es).
  rewrite Es. exact (Hmod i m Em).
Qed.

Lemma instancesConsistent_render (w : World) :
  instancesConsistent w -> instancesConsistent (render w).
Proof.
  intros (Hnd & Hlt & Hmod). unfold render, instancesConsistent.
  destruct (negb _ && _); simpl;
    destruct (voteModal w) as [[i m] |] eqn:E in |- *;
    simpl; (split; [exact Hnd |]).
  - split; [exact Hlt | rewrite E; intros j m' [= <- <-]; exact (Hmod i m E)].
  - split; [intros j Hj; specialize (Hlt j Hj); lia |].
    intros j m' [= <- <-]. split; [lia |].
    intro Hin. specialize (Hlt _ Hin). lia.
  - split; [exact Hlt | discriminate].
  - split; [exact Hlt | rewrite E; discriminate].
Qed.

Lemma instancesConsistent_handle (w : World) (e : Event) :
  instancesConsistent w -> instancesConsistent (handle w e).
Proof.
  intro Hw.
  destruct e as [| seq r | b | | n | | | | | i r]; simpl.
  - (* LoadVotingStatus *)
    apply (instancesConsistent_same w); auto.
    intros i m' E. exists m'. auto.
  - (* StatusResponse *)
    destruct (mem_nat seq (statusInFlight w)); [| exact Hw].
    apply (instancesConsistent_same w); auto.
    intros i m' E. exists m'. auto.
  - (* ParentRender *)
    apply (instancesConsistent_same w); auto.
    intros i m' E. exists m'. auto.
  - (* ClickVoteDirectly *)
    destruct (_ || _); [exact Hw |].
    apply (instancesConsistent_same w); auto.
    intros i m' E. exists m'. auto.
  - (* SelectOption *)
    destruct (voteModal w) as [[i m] |] eqn:E; [| exact Hw].
    destruct (_ || _); [exact Hw |].
    apply (instancesConsistent_same w); auto.
    simpl. intros j m' [= <- <-]. exists m. rewrite E. auto.
  - (* SubmitVote *)
    destruct (voteModal w) as [[i m] |] eqn:E; [| exact Hw].
    unfold VoteModal.handleSubmit.
    destruct (negb _ || VoteModal.submitting m) eqn:G.
    + apply (instancesConsistent_same w); auto.
      simpl. intros j m' [= <- <-]. exists m. rewrite E. auto.
    + apply orb_false_iff in G. destruct G as [_ Gs].
      destruct Hw as (Hnd & Hlt & Hmod).
      destruct (Hmod i m E) as [Hi Hsub].
      unfold instancesConsistent. simpl. split; [| split].
      * apply NoDup_app; [exact Hnd | repeat constructor; intros [] |].
        intros j Hj [<- | []]. apply Hsub in Hj. congruence.
      * intros j Hj. apply in_app_or in Hj. destruct Hj as [Hj | [<- | []]];
          auto.
      * intros j m' [= <- <-]. auto.
  - (* BackdropClick *)
    destruct (voteModal w) as [[i m] |] eqn:E; [| exact Hw].
    apply (instancesConsistent_same w); auto.
    simpl. intros j m' [= <- <-]. exists m. rewrite E. auto.
  - (* CloseButtonClick *)
    destruct (voteModal w) as [[i m] |] eqn:E; [| exact Hw].
    destruct (VoteModal.closeButtonDisabled m); [exact Hw |].
    apply (instancesConsistent_same w); auto.
    simpl. intros j m' [= <- <-]. exists m. rewrite E. auto.
  - (* CloseTimeout *)
    destruct (closeTimers w); [exact Hw |].
    apply (instancesConsistent_same w); auto.
    intros i m' E. exists m'. auto.
  - (* VoteResponse *)
    destruct (mem_nat i (votesInFlight w)); [| exact Hw].
    destruct Hw as (Hnd & Hlt & Hmod).
    assert (Hw2 : instancesConsistent
                    match voteModal w with
                    | Some (j, m) =>
                        if Nat.eqb i j then
                          with_voteModal
                            (Some (j, fst (VoteModal.handleSubmit_settle r m)))
                            (with_votesInFlight
                               (remove_nat i (votesInFlight w)) w)
                        else with_votesInFlight
                               (remove_nat i (votesInFlight w)) w
                    | None => with_votesInFlight
                                (remove_nat i (votesInFlight w)) w
                    end).
    { assert (Hnd' : NoDup (remove_nat i (votesInFlight w)))
        by (apply NoDup_filter; exact Hnd).
      assert (Hlt' : forall j, In j (remove_nat i (votesInFlight w)) ->
                               (j < instances w)%nat).
      { intros j Hj. apply remove_nat_In in Hj. apply Hlt, Hj. }
      destruct (voteModal w) as [[j m] |] eqn:E.
      - destruct (Nat.eqb_spec i j) as [<- | Hne];
          unfold instancesConsistent; simpl;
          (split; [exact Hnd' |]); (split; [exact Hlt' |]).
        + intros k m' [= <- <-]. split; [apply (Hmod i m eq_refl) |].
          intro Hin. apply remove_nat_In in Hin. destruct Hin as [_ Hin].
          congruence.
        + rewrite E. intros k m' [= <- <-]. split; [apply (Hmod j m eq_refl) |].
          intro Hin. apply remove_nat_In in Hin. apply (Hmod j m eq_refl), Hin.
      - unfold instancesConsistent; simpl.
        split; [exact Hnd' |]. split; [exact Hlt' |].
        rewrite E. discriminate. }
    simpl in *.
    (* the success branch only adds a status request and a timer *)
    destruct r as [u | c |]; exact Hw2.
Qed.

(** X21: in every reachable state each modal instance has at most one vote
    request in flight: the [submitting] guard serializes the submissions
    of one instance. *)
Lemma one_vote_in_flight_per_instance
      (p : VotingPanel.Props) (evs : list Event) :
  NoDup (votesInFlight (run (mount p) evs)).
Proof.
  assert (H : forall w, instancesConsistent w ->
                        instancesConsistent (run w evs)).
  { induction evs as [| e evs IH]; intros w Hw; simpl; [exact Hw |].
    apply IH. apply instancesConsistent_render, instancesConsistent_handle.
    exact Hw. }
  apply H. apply instancesConsistent_render.
  unfold instancesConsistent. simpl.
  split; [constructor |]. split; [intros i [] | discriminate].
Qed.

(** C5 on the failing input: the user submits a vote, dismisses the modal
    through its backdrop while the request is pending, reopens it and
    submits again.  No response has arrived, and two [POST vote] requests
    of the same proposal are in flight. *)
Theorem second_vote_sent_while_first_is_pending :
  votesInFlight
    (run (mount Sample.props)
         [ClickVoteDirectly; SubmitVote; BackdropClick; CloseTimeout;
          ClickVoteDirectly; SubmitVote])
  = [0%nat; 1%nat]
  /\ votesSent
       (run (mount Sample.props)
            [ClickVoteDirectly; SubmitVote; BackdropClick; CloseTimeout;
             ClickVoteDirectly; SubmitVote])
     = [POST_vote "p1" 1; POST_vote "p1" 1]
  /\ votesInFlight
       (run (mount Sample.props)
            [ClickVoteDirectly; SubmitVote; CloseButtonClick; CloseTimeout;
             ClickVoteDirectly; SubmitVote; SubmitVote])
     = [0%nat].
Proof. repeat split. Qed.

End Submission.

(** * Further properties of the components *)

(** ** Sorting with a comparator *)

Section Sorting.

Context {A : Type} (cmp : A -> A -> Z).

(** The comparator is consistent: it orders any two elements one way or
    the other, and transitively. *)
Hypothesis cmp_total : forall a b, 0 < cmp a b -> cmp b a <= 0.
Hypothesis cmp_trans :
  forall a b c, cmp a b <= 0 -> cmp b c <= 0 -> cmp a c <= 0.

Lemma insert_perm (x : A) (l : list A) :
  Permutation (x :: l) (Js.insert cmp x l).
Proof.
  induction l as [| y l IH]; simpl; [apply Permutation_refl |].
  destruct (cmp x y <=? 0); [apply Permutation_refl |].
  eapply perm_trans; [apply perm_swap |]. apply perm_skip. exact IH.
Qed.

Lemma sort_perm (l : list A) : Permutation l (Js.sort cmp l).
Proof.
  induction l as [| x l IH]; simpl; [constructor |].
  eapply perm_trans; [apply perm_skip; exact IH | apply insert_perm].
Qed.

Lemma insert_sorted (x : A) (l : list A) :
  StronglySorted (fun a b => cmp a b <= 0) l ->
  StronglySorted (fun a b => cmp a b <= 0) (Js.insert cmp x l).
Proof.
  induction l as [| y l IH]; intro Hs; simpl.
  - repeat constructor.
  - inversion Hs as [| ? ? Hs' Hall]; subst.
    destruct (Z.leb_spec (cmp x y) 0) as [Hle | Hgt].
    + constructor; [exact Hs |]. constructor; [exact Hle |].
      apply Forall_forall. intros z Hz.
      apply (cmp_trans x y z Hle).
      exact (proj1 (Forall_forall _ _) Hall z Hz).
    + constructor; [apply IH; exact Hs' |].
      apply (Permutation_Forall (insert_perm x l)).
      constructor; [apply cmp_total; exact Hgt | exact Hall].
Qed.

Lemma sort_sorted (l : list A) :
  StronglySorted (fun a b => cmp a b <= 0) (Js.sort cmp l).
Proof.
  induction l as [| x l IH]; simpl; [constructor |].
  apply insert_sorted. exact IH.
Qed.

End Sorting.

Lemma StronglySorted_impl {A : Type} (R R' : A -> A -> Prop) (l : list A) :
  (forall a b, R a b -> R' a b) ->
  StronglySorted R l -> StronglySorted R' l.
Proof.
  intros HR Hs. induction Hs as [| x l Hs IH Hall]; constructor.
  - exact IH.
  - apply (Forall_impl _ (HR x)). exact Hall.
Qed.

(** ** The suggestion list *)

Section SuggestionList.

Import SuggestionDisplay.

Lemma compareSuggestions_le (a b : Suggestion) :
  compareSuggestions a b <= 0
  <-> (suggestion_type a = delegate -> suggestion_type b = delegate)
      /\ (suggestion_type a = suggestion_type b -> created_at b <= created_at a).
Proof.
  unfold compareSuggestions.
  destruct (suggestion_type a), (suggestion_type b); split; intro H.
  - split; [reflexivity | intros _; lia].
  - destruct H as [_ H]. specialize (H eq_refl). lia.
  - lia.
  - destruct H as [H _]. specialize (H eq_refl). discriminate H.
  - split; intro E; discriminate E.
  - lia.
  - split; [intro E; discriminate E | intros _; lia].
  - destruct H as [_ H]. specialize (H eq_refl). lia.
Qed.

(** X1: the displayed suggestions are the given ones rearranged: every
    vote suggestion stands before every delegate suggestion, and among
    suggestions of one type a newer one never stands after an older
    one. *)
Theorem sortedSuggestions_ordered (suggestions : list Suggestion) :
  Permutation suggestions (sortedSuggestions suggestions)
  /\ StronglySorted
       (fun a b =>
          (suggestion_type a = delegate -> suggestion_type b = delegate)
          /\ (suggestion_type a = suggestion_type b ->
              created_at b <= created_at a))
       (sortedSuggestions suggestions).
Proof.
  split; [apply sort_perm |].
  apply (StronglySorted_impl (fun a b => compareSuggestions a b <= 0)).
  - intros a b. apply compareSuggestions_le.
  - apply sort_sorted.
    + intros a b. unfold compareSuggestions.
      destruct (suggestion_type a), (suggestion_type b); lia.
    + intros a b c. unfold compareSuggestions.
      destruct (suggestion_type a), (suggestion_type b), (suggestion_type c);
        lia.
Qed.

End SuggestionList.

(** ** Times shown on the page *)

Section Times.

Import ProposalDetailPage SuggestionDisplay.

(** X2: the age text of a suggestion.  Less than an hour old, or created
    in the future of the local clock: "Just now"; from one to two hours:
    "1 hour ago"; up to 24 hours: the whole hours; from 24 to 48 hours:
    "1 day ago"; beyond: the whole days of the age. *)
Theorem formatSuggestionTime_thresholds (now createdAt : Z) :
  (now - createdAt < 3600000 ->
   formatSuggestionTime now createdAt = "Just now")
  /\ (3600000 <= now - createdAt < 7200000 ->
      formatSuggestionTime now createdAt = "1 hour ago")
  /\ (7200000 <= now - createdAt < 86400000 ->
      formatSuggestionTime now createdAt
      = Js.number_to_string ((now - createdAt) / 3600000) ++ " hours ago")
  /\ (86400000 <= now - createdAt < 172800000 ->
      formatSuggestionTime now createdAt = "1 day ago")
  /\ (172800000 <= now - createdAt ->
      formatSuggestionTime now createdAt
      = Js.number_to_string ((now - createdAt) / 86400000) ++ " days ago").
Proof.
  unfold formatSuggestionTime.
  change (1000 * 60 * 60) with 3600000.
  assert (Hdd : (now - createdAt) / 3600000 / 24 = (now - createdAt) / 86400000).
  { rewrite Z.div_div by lia. reflexivity. }
  rewrite Hdd.
  destruct (Z.ltb_spec ((now - createdAt) / 3600000) 1) as [H1 | H1];
    [| destruct (Z.eqb_spec ((now - createdAt) / 3600000) 1) as [H2 | H2];
       [| destruct (Z.ltb_spec ((now - createdAt) / 3600000) 24) as [H3 | H3];
          [| destruct (Z.eqb_spec ((now - createdAt) / 86400000) 1)
               as [H4 | H4]]]];
    repeat split; intros Hr; try reflexivity; exfalso;
    revert H1; try revert H2; try revert H3; try revert H4;
    Z.div_mod_to_equations; lia.
Qed.

Lemma formatSuggestionTime_thresholds_witness :
  formatSuggestionTime 18000000 0 = "5 hours ago"
  /\ formatSuggestionTime 0 5000 = "Just now".
Proof.
  split.
  - apply (proj1 (proj2 (proj2 (formatSuggestionTime_thresholds 18000000 0)))).
    lia.
  - apply (proj1 (formatSuggestionTime_thresholds 0 5000)). lia.
Defined.

(** X3: the remaining-time text by range.  With less than a minute left
    it reads "1 minutes left"; below an hour it counts whole minutes,
    below a day whole hours, and from 24 hours on whole days. *)
Theorem getTimeRemaining_units (now d : Z) :
  (0 < d - now < 60000 -> getTimeRemaining now d = "1 minutes left")
  /\ (60000 <= d - now < 3600000 ->
      getTimeRemaining now d
      = Js.number_to_string ((d - now) / 60000) ++ " minute"
        ++ (if (d - now) / 60000 =? 1 then "" else "s") ++ " left")
  /\ (3600000 <= d - now < 86400000 ->
      getTimeRemaining now d
      = Js.number_to_string ((d - now) / 3600000) ++ " hour"
        ++ (if (d - now) / 3600000 =? 1 then "" else "s") ++ " left")
  /\ (86400000 <= d - now ->
      getTimeRemaining now d
      = Js.number_to_string ((d - now) / 86400000) ++ " day"
        ++ (if (d - now) / 86400000 =? 1 then "" else "s") ++ " left").
Proof.
  unfold getTimeRemaining.
  change (1000 * 60 * 60 * 24) with 86400000.
  change (1000 * 60 * 60) with 3600000.
  change (1000 * 60) with 60000.
  destruct (Z.leb_spec (d - now) 0) as [H0 | H0];
    [repeat split; intros Hr; exfalso; lia |].
  destruct (Z.gtb_spec ((d - now) / 86400000) 0) as [Hd | Hd].
  - repeat split; intros Hr; try reflexivity; exfalso; revert Hd;
      Z.div_mod_to_equations; lia.
  - destruct (Z.gtb_spec ((d - now) / 3600000) 0) as [Hh | Hh].
    + repeat split; intros Hr; try reflexivity; exfalso; revert Hd Hh;
        Z.div_mod_to_equations; lia.
    + repeat split; intros Hr; try (exfalso; revert Hd Hh;
                                    Z.div_mod_to_equations; lia).
      * assert (E : (d - now) / 60000 = 0)
          by (apply Z.div_small; lia).
        rewrite E. reflexivity.
      * assert (E : 1 <= (d - now) / 60000)
          by (apply Z.div_le_lower_bound; lia).
        rewrite Z.max_r by exact E. reflexivity.
Qed.

Lemma getTimeRemaining_units_witness :
  getTimeRemaining 0 59999 = "1 minutes left"
  /\ getTimeRemaining 0 90000000 = "1 day left".
Proof.
  split.
  - apply (proj1 (getTimeRemaining_units 0 59999)). lia.
  - apply (proj2 (proj2 (proj2 (getTimeRemaining_units 0 90000000)))). lia.
Defined.

(** With an hour or more left the text counts hours or days. *)
Lemma getTimeRemaining_hours_or_days (now d : Z) :
  3600000 <= d - now ->
  exists n unit,
    1 <= n /\ In unit ["hour"; "hours"; "day"; "days"]
    /\ getTimeRemaining now d
       = Js.number_to_string n ++ " " ++ unit ++ " left".
Proof.
  intro Hr. unfold getTimeRemaining.
  change (1000 * 60 * 60 * 24) with 86400000.
  change (1000 * 60 * 60) with 3600000.
  destruct (Z.leb_spec (d - now) 0) as [H0 | H0]; [lia |].
  destruct (Z.gtb_spec ((d - now) / 86400000) 0) as [Hd | Hd].
  - exists ((d - now) / 86400000).
    destruct (_ =? 1); [exists "day" | exists "days"];
      (split; [lia | split; [simpl; tauto | reflexivity]]).
  - assert (Hh : 1 <= (d - now) / 3600000)
      by (apply Z.div_le_lower_bound; lia).
    destruct (Z.gtb_spec ((d - now) / 3600000) 0) as [_ | Hn]; [| lia].
    exists ((d - now) / 3600000).
    destruct (_ =? 1); [exists "hour" | exists "hours"];
      (split; [lia | split; [simpl; tauto | reflexivity]]).
Qed.

(** X4: when the "Create Suggestion" button is rendered, the proposal is
    not expired, the categories have been loaded and one of them was
    created by the proposal's creator, and the remaining time is shown in
    hours or days, never in minutes. *)
Theorem createButtonShown_window
    (now : Z) (proposal : Proposal.t) (loadingCategories : bool)
    (userCategories : list Category.t) :
  createButtonShown
    (canCreateSuggestions now (Proposal.voting_deadline proposal))
    loadingCategories userCategories proposal = true ->
  isExpired now (Proposal.voting_deadline proposal) = false
  /\ loadingCategories = false
  /\ (exists cat, In cat userCategories
                  /\ Category.created_by cat = Proposal.created_by proposal)
  /\ exists n unit,
       1 <= n /\ In unit ["hour"; "hours"; "day"; "days"]
       /\ getTimeRemaining now (Proposal.voting_deadline proposal)
          = Js.number_to_string n ++ " " ++ unit ++ " left".
Proof.
  unfold createButtonShown, canUserCreateSuggestions.
  intro H. apply andb_true_iff in H. destruct H as [Hc Hu].
  unfold canCreateSuggestions in Hc. rewrite Z.gtb_ltb, Z.ltb_lt in Hc.
  split; [| split; [| split]].
  - unfold isExpired.
    destruct (getProposalStatus_cases now (Proposal.voting_deadline proposal))
      as [[Hr E] | [[Hr E] | [Hr E]]]; rewrite E; [lia | reflexivity..].
  - destruct loadingCategories; [discriminate Hu | reflexivity].
  - destruct loadingCategories; [discriminate Hu |].
    apply existsb_exists in Hu. destruct Hu as (cat & Hin & He).
    exists cat. split; [exact Hin | apply String.eqb_eq; exact He].
  - apply getTimeRemaining_hours_or_days. lia.
Qed.

Lemma createButtonShown_window_witness :
  isExpired 0 (Proposal.voting_deadline MoreSamples.tomorrow) = false
  /\ false = false
  /\ (exists cat, In cat [MoreSamples.alice_category]
                  /\ Category.created_by cat
                     = Proposal.created_by MoreSamples.tomorrow)
  /\ exists n unit,
       1 <= n /\ In unit ["hour"; "hours"; "day"; "days"]
       /\ getTimeRemaining 0 (Proposal.voting_deadline MoreSamples.tomorrow)
          = Js.number_to_string n ++ " " ++ unit ++ " left".
Proof.
  apply (createButtonShown_window 0 MoreSamples.tomorrow false
           [MoreSamples.alice_category]).
  reflexivity.
Defined.

(** X5: the badge of a classified deadline is green, orange or red: the
    gray default of [getStatusBadgeClass] is never used for a status that
    [getProposalStatus] returns. *)
Theorem getStatusBadgeClass_of_status (now d : Z) :
  In (getStatusBadgeClass (getProposalStatus now d))
     ["bg-green-500/20 text-green-700 backdrop-blur-sm";
      "bg-orange-500/20 text-orange-700 backdrop-blur-sm";
      "bg-red-500/20 text-red-700 backdrop-blur-sm"]
  /\ getStatusBadgeClass (getProposalStatus now d)
     <> "bg-gray-500/20 text-gray-700 backdrop-blur-sm".
Proof.
  destruct (getProposalStatus_cases now d) as [[_ E] | [[_ E] | [_ E]]];
    rewrite E; (split; [simpl; tauto | discriminate]).
Qed.


End Times.

(** ** Suggestions: applying and creating *)

Section Suggestions.

Import SuggestionDisplay ApplySuggestion.

(** X7: the Apply button of a suggestion is enabled exactly when the
    suggestion is not being applied, is not already applied, the deadline
    lies in the future, and the known status reports no cooldown. *)
Theorem applyDisabled_iff
    (now : Z) (proposal : Proposal.t) (status : option VotingStatus)
    (isApplying : bool) (s : Suggestion) :
  applyDisabled now proposal status isApplying s = false
  <-> isApplying = false
      /\ isSuggestionApplied status s = false
      /\ now < Proposal.voting_deadline proposal
      /\ (forall st, status = Some st -> cooldown_active st = false).
Proof.
  unfold applyDisabled, isVotingActive, cooldownActive.
  destruct isApplying; simpl.
  { split; [discriminate | intros [[=] _]]. }
  destruct (isSuggestionApplied status s); simpl.
  { split; [discriminate | intros (_ & [=] & _)]. }
  destruct (Z.ltb_spec now (Proposal.voting_deadline proposal)) as [Hlt | Hge];
    simpl.
  - rewrite andb_true_r. destruct status as [st |].
    + split.
      * intro Hc. repeat split; try assumption. intros ? [= <-]. exact Hc.
      * intros (_ & _ & _ & Hc). apply Hc. reflexivity.
    + split; [intros _; repeat split; [assumption | discriminate]
             | reflexivity].
  - split; [discriminate | intros (_ & _ & Hlt & _); lia].
Qed.

(** X18: what Apply sends is what the Applied badge looks for.  If Apply
    sends a vote for option [n], every status that reports a vote for [n]
    marks the suggestion applied; if it sends a delegation to [u], every
    status that reports a delegation to [u] does.  A vote suggestion
    without a target option, or with option 0, sends nothing, and neither
    does a delegate suggestion without a target user or with an empty
    one. *)
Theorem applied_request_marks_suggestion
    (proposal : Proposal.t) (s : Suggestion) (st : VotingStatus) :
  (forall id n,
      handleApplySuggestion proposal s = inl (POST_vote id n) ->
      has_voted st = true -> voted_option st = Some n ->
      isSuggestionApplied (Some st) s = true)
  /\ (forall id u,
         handleApplySuggestion proposal s = inl (POST_delegate id u) ->
         has_delegated st = true ->
         option_map unique_id (delegate_info st) = Some u ->
         isSuggestionApplied (Some st) s = true)
  /\ ((exists msg, handleApplySuggestion proposal s = inr msg)
      <-> match suggestion_type s with
          | vote_option =>
              target_option_number s = None \/ target_option_number s = Some 0
          | delegate => target_user s = None \/ target_user s = Some ""
          end).
Proof.
  unfold handleApplySuggestion, isSuggestionApplied.
  destruct (suggestion_type s); (split; [| split]).
  - intros id n H. destruct (target_user s) as [u |]; [| discriminate].
    destruct (Js.truthy_string u); discriminate.
  - intros id u H Hd He.
    destruct (target_user s) as [u' |]; [| discriminate].
    destruct (Js.truthy_string u'); [| discriminate].
    injection H as _ <-. rewrite Hd, He. simpl. apply String.eqb_refl.
  - destruct (target_user s) as [u |].
    + destruct u as [| c u]; simpl.
      * split; [auto | intros _; eexists; reflexivity].
      * split; [intros [msg [=]] | intros [[=] | [=]]].
    + split; [auto | intros _; eexists; reflexivity].
  - intros id n H Hv He.
    destruct (target_option_number s) as [n' |]; [| discriminate].
    destruct (Js.truthy_number n'); [| discriminate].
    injection H as _ <-. rewrite Hv, He. simpl. apply Z.eqb_refl.
  - intros id u H. destruct (target_option_number s) as [n |]; [| discriminate].
    destruct (Js.truthy_number n); discriminate.
  - destruct (target_option_number s) as [n |].
    + unfold Js.truthy_number. destruct (Z.eqb_spec n 0) as [-> | Hn]; simpl.
      * split; [auto | intros _; eexists; reflexivity].
      * split; [intros [msg [=]] | intros [[=] | [= E]]; contradiction].
    + split; [auto | intros _; eexists; reflexivity].
Qed.

Lemma applied_request_marks_suggestion_witness :
  isSuggestionApplied (Some Sample.voted2) Sample.suggest_option2 = true
  /\ isSuggestionApplied (Some Sample.delegated_to_bob) Sample.suggest_bob
     = true.
Proof.
  split.
  - apply (proj1 (applied_request_marks_suggestion Sample.proposal
                    Sample.suggest_option2 Sample.voted2) "p1" 2);
      reflexivity.
  - apply (proj1 (proj2 (applied_request_marks_suggestion Sample.proposal
                           Sample.suggest_bob Sample.delegated_to_bob))
             "p1" "bob"); reflexivity.
Defined.

Lemma trim_nonempty (s : string) : Js.trim s <> "" -> s <> "".
Proof. intros H E. apply H. rewrite E. reflexivity. Qed.

(** X19: a suggestion the form sends goes to a chosen category and names
    exactly one target, the one of its type: an option number of at least
    1 and no user for a vote suggestion, a user that is not blank and no
    option for a delegate suggestion.  A suggestion with these targets can
    be applied: Apply sends a request for it. *)
Theorem suggestion_payload_has_one_target
    (proposal : Proposal.t) (formData : SuggestionForm.FormData)
    (category : string) (payload : SuggestionForm.Payload) :
  SuggestionForm.handleSubmit proposal formData = Some (category, payload) ->
  category <> ""
  /\ match SuggestionForm.payload_suggestion_type payload with
     | vote_option =>
         SuggestionForm.payload_target_user payload = None
         /\ exists n, SuggestionForm.payload_target_option_number payload
                      = Some n /\ 1 <= n
     | delegate =>
         SuggestionForm.payload_target_option_number payload = None
         /\ exists u, SuggestionForm.payload_target_user payload = Some u
                      /\ Js.trim u <> ""
     end
  /\ forall s,
       suggestion_type s = SuggestionForm.payload_suggestion_type payload ->
       target_option_number s
       = SuggestionForm.payload_target_option_number payload ->
       target_user s = SuggestionForm.payload_target_user payload ->
       exists req, handleApplySuggestion proposal s = inl req.
Proof.
  unfold SuggestionForm.handleSubmit, SuggestionForm.validation. simpl.
  destruct (Js.truthy_string (SuggestionForm.category_id formData)) eqn:Ec;
    simpl.
  2:{ intro H. discriminate H. }
  apply truthy_string_iff in Ec.
  destruct (SuggestionForm.suggestion_type formData) eqn:Et; simpl.
  - destruct (Js.truthy_string
                (Js.trim (SuggestionForm.target_user formData))) eqn:Eu;
      simpl; [| intro H; discriminate H].
    apply truthy_string_iff in Eu.
    intros [= <- <-]. simpl.
    split; [exact Ec |]. split.
    + split; [reflexivity | eexists; split; [reflexivity | exact Eu]].
    + intros s Hs _ Hu. unfold handleApplySuggestion. rewrite Hs, Hu.
      apply trim_nonempty, truthy_string_iff in Eu. rewrite Eu.
      eexists; reflexivity.
  - destruct (Js.truthy_number
                (SuggestionForm.target_option_number formData)) eqn:En;
      simpl; [| intro H; discriminate H].
    destruct (Z.ltb_spec (SuggestionForm.target_option_number formData) 1)
      as [Hlt | Hge]; simpl; [intro H; discriminate H |].
    intros [= <- <-]. simpl.
    split; [exact Ec |]. split.
    + split; [reflexivity | eexists; split; [reflexivity | exact Hge]].
    + intros s Hs Hn _. unfold handleApplySuggestion. rewrite Hs, Hn, En.
      eexists; reflexivity.
Qed.

Lemma suggestion_payload_has_one_target_witness :
  "c1" <> "".
Proof.
  exact (proj1 (suggestion_payload_has_one_target Sample.proposal
                  MoreSamples.delegate_form "c1"
                  {| SuggestionForm.payload_proposal_id := "p1";
                     SuggestionForm.payload_suggestion_type := delegate;
                     SuggestionForm.payload_target_user := Some " bob ";
                     SuggestionForm.payload_target_option_number := None |}
                  eq_refl)).
Defined.

End Suggestions.

(** ** The status display and the panel's effects *)

Section PanelEffects.

Import VotingPanel.

(** X8: what the status display shows for a known status once loading is
    over.  A vote is shown exactly when [has_voted] holds and the
    [selected_option] detail is present, whether or not a delegation is
    reported too; a delegation is shown exactly when no vote is shown,
    [has_delegated] holds and [delegate_info] is present; otherwise the
    display reads "You haven't participated yet". *)
Theorem VotingStatus_view (status : VotingStatus) :
  (forall sel,
      VotingStatusComponent.VotingStatus (Some status) false = VotingStatusComponent.Voted sel
      <-> has_voted status = true /\ selected_option status = Some sel)
  /\ (forall d,
         VotingStatusComponent.VotingStatus (Some status) false = VotingStatusComponent.Delegated d
         <-> (has_voted status = false \/ selected_option status = None)
             /\ has_delegated status = true
             /\ delegate_info status = Some d)
  /\ (VotingStatusComponent.VotingStatus (Some status) false = VotingStatusComponent.NotParticipated
      <-> (has_voted status = false \/ selected_option status = None)
          /\ (has_delegated status = false \/ delegate_info status = None)).
Proof.
  unfold VotingStatusComponent.VotingStatus.
  destruct (has_voted status), (selected_option status) as [sel0 |],
    (has_delegated status), (delegate_info status) as [d0 |];
    (split; [intro sel | split; [intro d |]]);
    intuition congruence.
Qed.

Lemma VotingStatus_view_shows_vote_first :
  VotingStatusComponent.VotingStatus (Some MoreSamples.voted_and_delegated)
    false
  = VotingStatusComponent.Voted Sample.option2.
Proof.
  apply (proj1 (VotingStatus_view MoreSamples.voted_and_delegated)).
  split; reflexivity.
Defined.

(** X9: the deadline effect is idempotent: running it again on the state
    it produced changes nothing, so it does not matter how often React
    re-runs it for unchanged dependencies. *)
Theorem deadlineEffect_idempotent (p : Props) (st : State) :
  deadlineEffect p (deadlineEffect p st) = deadlineEffect p st.
Proof.
  unfold deadlineEffect.
  destruct st as [[vs |] l dp sv sd]; simpl; [reflexivity |].
  destruct (isExpired p); reflexivity.
Qed.



End PanelEffects.

(** ** The two modals *)

Section Modals.


(** X12: a submission that failed leaves its modal as it was before the
    submission, so that submitting again sends the same request: the
    [finally] branch clears [submitting] and nothing else has changed.  A
    submission that succeeded hides the modal and calls [onSuccess]. *)
Theorem failed_submission_can_be_retried :
  (forall (p : VoteModal.Props) (st : VoteModal.State) (req : Request)
          (r : FetchResult unit),
      snd (VoteModal.handleSubmit p st) = Some req ->
      (failed r ->
       VoteModal.handleSubmit_settle r (fst (VoteModal.handleSubmit p st))
       = (st, false))
      /\ forall u,
           snd (VoteModal.handleSubmit_settle (Ok u)
                  (fst (VoteModal.handleSubmit p st))) = true
           /\ VoteModal.isVisible
                (fst (VoteModal.handleSubmit_settle (Ok u)
                        (fst (VoteModal.handleSubmit p st)))) = false)
  /\ (forall (p : DelegateModal.Props) (st : DelegateModal.State)
             (req : Request) (r : FetchResult unit),
         snd (DelegateModal.handleSubmit p st) = Some req ->
         (failed r ->
          DelegateModal.handleSubmit_settle r
            (fst (DelegateModal.handleSubmit p st))
          = (st, false))
         /\ forall u,
              snd (DelegateModal.handleSubmit_settle (Ok u)
                     (fst (DelegateModal.handleSubmit p st))) = true
              /\ DelegateModal.isVisible
                   (fst (DelegateModal.handleSubmit_settle (Ok u)
                           (fst (DelegateModal.handleSubmit p st)))) = false).
Proof.
  split; intros p st req r.
  - unfold VoteModal.handleSubmit.
    destruct (negb _ || VoteModal.submitting st) eqn:G; simpl;
      [discriminate |].
    apply orb_false_iff in G. destruct G as [_ Gs].
    intros _. split.
    + intro Fr. destruct st as [v o sb]; simpl in *; subst sb.
      destruct r; [destruct Fr | reflexivity | reflexivity].
    + intro u. split; reflexivity.
  - unfold DelegateModal.handleSubmit.
    destruct (negb _ || DelegateModal.submitting st) eqn:G; simpl;
      [discriminate |].
    apply orb_false_iff in G. destruct G as [_ Gs].
    intros _. split.
    + intro Fr. destruct st as [v t sb us lu sd]; simpl in *; subst sb.
      destruct r; [destruct Fr | reflexivity | reflexivity].
    + intro u. split; reflexivity.
Qed.

Lemma failed_submission_can_be_retried_witness :
  VoteModal.handleSubmit_settle (NotOk 429)
    (fst (VoteModal.handleSubmit (Sample.voteProps Sample.proposal)
            (VoteModal.initial (Sample.voteProps Sample.proposal))))
  = (VoteModal.initial (Sample.voteProps Sample.proposal), false).
Proof.
  apply (proj1 (proj1 failed_submission_can_be_retried
                  (Sample.voteProps Sample.proposal)
                  (VoteModal.initial (Sample.voteProps Sample.proposal))
                  (POST_vote "p1" 1) (NotOk 429) eq_refl)).
  exact I.
Defined.

Lemma In_firstn {A : Type} (n : nat) (l : list A) (x : A) :
  In x (firstn n l) -> In x l.
Proof.
  revert l. induction n as [| n IH]; intros [| y l]; simpl; try tauto.
  intros [E | H]; [left; exact E | right; apply IH; exact H].
Qed.

(** X13: the autocomplete list holds at most five users, each of them a
    user of the organization list whose lower-cased id or full name
    contains the lower-cased input; for a blank input it is empty. *)
Theorem filteredUsers_bounds (st : DelegateModal.State) :
  (List.length (DelegateModal.filteredUsers st) <= 5)%nat
  /\ (forall u,
         In u (DelegateModal.filteredUsers st) ->
         In u (DelegateModal.organizationUsers st)
         /\ (Js.includes (Js.toLowerCase (OrganizationUser.unique_id u))
                         (Js.toLowerCase (DelegateModal.targetUser st))
             || Js.includes
                  (Js.toLowerCase (OrganizationUser.first_name u ++ " "
                                   ++ OrganizationUser.last_name u))
                  (Js.toLowerCase (DelegateModal.targetUser st))) = true)
  /\ (Js.trim (DelegateModal.targetUser st) = "" ->
      DelegateModal.filteredUsers st = []).
Proof.
  unfold DelegateModal.filteredUsers.
  destruct (Js.truthy_string (Js.trim (DelegateModal.targetUser st))) eqn:Et;
    cbn [negb].
  - split; [apply firstn_le_length |]. split.
    + intros u Hu. apply In_firstn in Hu. apply filter_In in Hu. exact Hu.
    + intro E. rewrite E in Et. discriminate Et.
  - split; [simpl; lia |]. split; [intros u [] | reflexivity].
Qed.

Lemma filteredUsers_bounds_witness :
  DelegateModal.filteredUsers
    (DelegateModal.setTargetUser "   " Sample.typed_carol) = [].
Proof.
  apply (proj2 (proj2 (filteredUsers_bounds _))). reflexivity.
Defined.



(** X14: picking a user from the autocomplete list makes the form valid
    and closes the list, provided the user's id is not empty and has no
    white space around it; submitting then sends a delegation to exactly
    that id. *)
Theorem handleUserSelect_valid
    (p : DelegateModal.Props) (st : DelegateModal.State)
    (u : OrganizationUser.t) :
  In u (DelegateModal.organizationUsers st) ->
  OrganizationUser.unique_id u <> "" ->
  Js.trim (OrganizationUser.unique_id u) = OrganizationUser.unique_id u ->
  DelegateModal.valid
    (DelegateModal.validation (DelegateModal.handleUserSelect u st)) = true
  /\ DelegateModal.showDropdown (DelegateModal.handleUserSelect u st) = false
  /\ (DelegateModal.submitting st = false ->
      snd (DelegateModal.handleSubmit p (DelegateModal.handleUserSelect u st))
      = Some (POST_delegate (Proposal.proposal_id (DelegateModal.proposal p))
                            (OrganizationUser.unique_id u))).
Proof.
  intros Hin Hne Htrim.
  assert (Hv : DelegateModal.valid
                 (DelegateModal.validation
                    (DelegateModal.handleUserSelect u st)) = true).
  { apply validation_valid_iff. simpl. rewrite Htrim.
    split; [exact Hne | exists u; auto]. }
  split; [exact Hv |]. split; [reflexivity |].
  intro Hs. unfold DelegateModal.handleSubmit. rewrite Hv. simpl.
  rewrite Hs. simpl. rewrite Htrim. reflexivity.
Qed.

Lemma handleUserSelect_valid_witness :
  DelegateModal.valid
    (DelegateModal.validation
       (DelegateModal.handleUserSelect Sample.carol Sample.typed_carol))
  = true.
Proof.
  apply (handleUserSelect_valid Sample.delegateProps Sample.typed_carol
           Sample.carol).
  - simpl. auto.
  - discriminate.
  - reflexivity.
Defined.




End Modals.

(** ** The panel and its vote modal as a system *)

Section PanelSystem.

Import VotingPanel Session.

Lemma render_sent (w : World) : sent (render w) = sent w.
Proof.
  unfold render.
  destruct (negb _ && _); simpl; destruct (voteModal w); reflexivity.
Qed.

Lemma render_closeTimers (w : World) : closeTimers (render w) = closeTimers w.
Proof.
  unfold render.
  destruct (negb _ && _); simpl; destruct (voteModal w); reflexivity.
Qed.

Lemma render_votesInFlight (w : World) :
  votesInFlight (render w) = votesInFlight w.
Proof.
  unfold render.
  destruct (negb _ && _); simpl; destruct (voteModal w); reflexivity.
Qed.

(** X16: when the response to a pending vote arrives, the vote leaves the
    requests in flight.  If it was a success, the panel sends exactly one
    status refresh, shows the status as loading, and one close timer is
    armed; if it was a failure, nothing is sent and no timer is armed. *)
Theorem vote_response_effects
    (w : World) (i : nat) (r : FetchResult unit) :
  In i (votesInFlight w) ->
  ~ In i (votesInFlight (step w (VoteResponse i r)))
  /\ (forall u, r = Ok u ->
        sent (step w (VoteResponse i r))
        = (sent w
           ++ [GET_voting_status
                 (Proposal.proposal_id (proposal (props w)))])%list
        /\ statusInFlight (step w (VoteResponse i r))
           = (statusInFlight w ++ [statusRequests w])%list
        /\ statusLoading (panel (step w (VoteResponse i r))) = true
        /\ closeTimers (step w (VoteResponse i r)) = S (closeTimers w))
  /\ (failed r ->
      sent (step w (VoteResponse i r)) = sent w
      /\ statusInFlight (step w (VoteResponse i r)) = statusInFlight w
      /\ closeTimers (step w (VoteResponse i r)) = closeTimers w).
Proof.
  intro Hin. apply mem_nat_In in Hin.
  unfold step.
  rewrite render_votesInFlight, render_sent, render_statusInFlight,
    render_closeTimers, render_panel, deadlineEffect_statusLoading.
  simpl. rewrite Hin.
  split; [| split].
  - destruct r; simpl; destruct (voteModal w) as [[j m] |]; simpl;
      try destruct (Nat.eqb i j); simpl;
      intro H; apply remove_nat_In in H; destruct H as [_ H];
      apply H; reflexivity.
  - intros u ->. simpl.
    destruct (voteModal w) as [[j m] |]; simpl;
      try destruct (Nat.eqb i j); simpl; repeat split.
  - intro Fr. destruct r; [destruct Fr | |];
      (destruct (voteModal w) as [[j m] |]; simpl;
       try destruct (Nat.eqb i j); simpl; repeat split).
Qed.

Lemma vote_response_effects_witness :
  ~ In 0%nat
      (votesInFlight
         (step (run (mount Sample.props) [ClickVoteDirectly; SubmitVote])
               (VoteResponse 0 (Ok tt)))).
Proof.
  apply (proj1 (vote_response_effects
                  (run (mount Sample.props) [ClickVoteDirectly; SubmitVote])
                  0%nat (Ok tt) (or_introl eq_refl))).
Defined.

(** After a render the modal instance exists exactly when the panel wants
    it. *)
Lemma render_mounted_iff (w : World) :
  voteModal (render w) <> None
  <-> showVoteModal (panel (render w)) = true
      /\ isExpired (props (render w)) = false.
Proof.
  rewrite render_panel, render_props.
  assert (Hs : showVoteModal (deadlineEffect (props w) (panel w))
               = showVoteModal (panel w)).
  { unfold deadlineEffect. destruct (votingStatus (panel w)); [reflexivity |].
    destruct (isExpired (props w)); reflexivity. }
  rewrite Hs. unfold render. simpl. rewrite Hs.
  destruct (isExpired (props w)), (showVoteModal (panel w)); simpl;
    destruct (voteModal w) eqn:E; simpl; rewrite ?E; intuition congruence.
Qed.

(** X17: in every state the panel can reach, a vote modal is mounted
    exactly when [showVoteModal] is set and the page does not consider the
    proposal expired; and a click on "Vote Directly" brings up a modal
    only if the proposal is not expired and the buttons are enabled. *)
Theorem vote_modal_mounted_iff (p : Props) (evs : list Event) :
  (voteModal (run (mount p) evs) <> None
   <-> showVoteModal (panel (run (mount p) evs)) = true
       /\ isExpired (props (run (mount p) evs)) = false)
  /\ (voteModal (run (mount p) evs) = None ->
      voteModal (step (run (mount p) evs) ClickVoteDirectly) <> None ->
      isExpired (props (run (mount p) evs)) = false
      /\ isButtonDisabled (panel (run (mount p) evs)) = false).
Proof.
  assert (Hinv : forall w,
             (voteModal w <> None
              <-> showVoteModal (panel w) = true
                  /\ isExpired (props w) = false) ->
             voteModal (run w evs) <> None
             <-> showVoteModal (panel (run w evs)) = true
                 /\ isExpired (props (run w evs)) = false).
  { induction evs as [| e evs IH]; intros w Hw; simpl; [exact Hw |].
    apply IH. apply render_mounted_iff. }
  assert (Hreach : voteModal (run (mount p) evs) <> None
                   <-> showVoteModal (panel (run (mount p) evs)) = true
                       /\ isExpired (props (run (mount p) evs)) = false).
  { apply Hinv. apply render_mounted_iff. }
  split; [exact Hreach |].
  set (w := run (mount p) evs) in *.
  intros Hnone Hopen.
  assert (Hs : forall q st, showVoteModal (deadlineEffect q st)
                            = showVoteModal st).
  { intros q st. unfold deadlineEffect.
    destruct (votingStatus st); [reflexivity |].
    destruct (isExpired q); reflexivity. }
  assert (Hh : handle w ClickVoteDirectly
               = if isExpired (props w) || isButtonDisabled (panel w)
                 then w
                 else with_panel (handleVoteClick (panel w)) w)
    by reflexivity.
  destruct (isExpired (props w) || isButtonDisabled (panel w)) eqn:G.
  - exfalso. unfold step in Hopen. rewrite Hh in Hopen.
    apply render_mounted_iff in Hopen.
    rewrite render_panel, render_props, Hs in Hopen.
    apply (proj2 Hreach); assumption.
  - apply orb_false_iff in G. exact G.
Qed.

Lemma vote_modal_mounted_iff_witness :
  isExpired (props (run (mount Sample.props) [])) = false
  /\ isButtonDisabled (panel (run (mount Sample.props) [])) = false.
Proof.
  apply (proj2 (vote_modal_mounted_iff Sample.props [])).
  - reflexivity.
  - discriminate.
Defined.

End PanelSystem.

(** ** Loading the proposal *)

Section ProposalLoading.

Import ProposalPage.



End ProposalLoading.

(** ** The results view *)

Section Results.

Import ResultsVisualization.

Lemma compareVotes_le (a b : ProposalOption * Q) :
  compareVotes a b <= 0 <-> (snd b <= snd a)%Q.
Proof.
  unfold compareVotes. rewrite Qle_alt.
  destruct (snd b ?= snd a)%Q; split; intro H; try lia; try discriminate.
  exfalso. apply H. reflexivity.
Qed.

(** X22: the options are listed with their votes in descending order of
    votes: the list is a rearrangement of the options, each paired with
    the votes read from [optionResults] (0 when there is no entry), and
    no option stands after one with fewer votes. *)
Theorem sortedOptions_descending
    (results : VoteResults) (options : list ProposalOption) :
  Permutation (map (fun o => (o, votesOf results o)) options)
              (sortedOptions results options)
  /\ StronglySorted (fun a b => (snd b <= snd a)%Q)
                    (sortedOptions results options)
  /\ (forall o,
         In o options ->
         lookup (Js.number_to_string (option_number o))
                (optionResults results) = None ->
         In (o, 0%Q) (sortedOptions results options)).
Proof.
  split; [apply sort_perm |]. split.
  - apply (StronglySorted_impl (fun a b => compareVotes a b <= 0)).
    + intros a b. apply compareVotes_le.
    + apply sort_sorted.
      * intros a b Hgt. apply compareVotes_le.
        apply Qlt_le_weak. apply Qnot_le_lt. intro Hle.
        apply compareVotes_le in Hle. lia.
      * intros a b c Hab Hbc. apply compareVotes_le.
        apply compareVotes_le in Hab. apply compareVotes_le in Hbc.
        exact (Qle_trans _ _ _ Hbc Hab).
  - intros o Hin Hl.
    apply (Permutation_in _ (sort_perm compareVotes _)).
    apply in_map_iff. exists o. split; [| exact Hin].
    unfold votesOf. rewrite Hl. reflexivity.
Qed.

Lemma sortedOptions_descending_witness :
  In (Sample.option1, 0%Q)
     (sortedOptions
        {| optionResults := [("2", 3%Q)];
           metadata := metadata MoreSamples.results |}
        [Sample.option1; Sample.option2]).
Proof.
  apply (proj2 (proj2 (sortedOptions_descending _ _))).
  - simpl. auto.
  - reflexivity.
Defined.

(** X23: the badges agree with the header line.  Without votes the header
    reads "No votes were cast" and no option is marked; under a "Winner"
    header no option is marked as tied and the winner mark is on the
    options with the winning number; an option is marked as tied only
    under the "Tie" header; and only an option numbered 0 can carry both
    marks. *)
Theorem result_badges (results : VoteResults) (o : ProposalOption * Q) :
  (hasVotes results = false ->
   header results = NoVotesCast
   /\ isWinner results o = false /\ isTie results o = false)
  /\ (forall n,
         header results = Winner n ->
         isTie results o = false
         /\ (isWinner results o = true <-> option_number (fst o) = n))
  /\ (isTie results o = true -> header results = Tie)
  /\ (isWinner results o = true -> isTie results o = true ->
      option_number (fst o) = 0).
Proof.
  unfold header, isWinner, isTie, truthy_winner, Js.truthy_number.
  destruct (hasVotes results), (Qle_bool (snd o) 0);
    destruct (winningOption (metadata results)) as [w |]; simpl;
    try (destruct (Z.eqb_spec w 0) as [E0 | E0];
         destruct (Z.eqb_spec (option_number (fst o)) w) as [Ew | Ew]);
    simpl; (split; [| split; [intro n | split]]);
    intuition (try congruence; try lia).
Qed.

Lemma result_badges_witness :
  isTie MoreSamples.results (Sample.option1, 2%Q) = false
  /\ (isWinner MoreSamples.results (Sample.option1, 2%Q) = true
      <-> option_number (fst (Sample.option1, 2%Q)) = 2).
Proof.
  apply (proj1 (proj2 (result_badges MoreSamples.results
                         (Sample.option1, 2%Q))) 2).
  reflexivity.
Defined.

End Results.
